(** * WaPOR raster acquisition: the download scripts and their properties

    A shallow embedding of [wapor_ingest.py] (the batch downloader) and of the
    authorisation cells of [wapor_python.py] (the notebook it was derived
    from).  The scripts talk to three collaborators that are not part of the
    repository: the [requests] HTTP client, GDAL's [gdal.Translate] and the
    FAO service behind them.  Their answers are taken from an environment
    ([env]); everything the scripts themselves do (the order of the calls, the
    URLs, the headers, the branches, the early returns, the sleeps) is
    transcribed from the source and recorded in a chronological trace. *)

From Stdlib Require Import ZArith QArith DecimalString.
From stdpp Require Import gmap strings list.

Set Warnings "-register-all,-clear-no-such-hyp".
Open Scope string_scope.
Open Scope list_scope.
Open Scope Z_scope.

(** ** Python values read from the service *)

(** The result of [Response.json()].  Numbers are never computed with, they
    are only carried around.  [JObj] lists the items of a dict in insertion
    order; a dict has no two items with the same key. *)
Inductive json : Type :=
| JNull
| JBool (b : bool)
| JNum (q : Q)
| JStr (s : string)
| JArr (items : list json)
| JObj (members : list (string * json)).

(** The exceptions that can travel through the scripts. *)
Inductive exn : Type :=
| HTTPError (msg : string)        (* requests.exceptions.HTTPError *)
| ConnectionError (msg : string)  (* any failure of the transport itself *)
| JSONDecodeError                 (* the body is not a JSON document *)
| KeyError (key : string)
| TypeError
| GdalError (msg : string).       (* raised by the GDAL bindings *)

Fixpoint assoc (k : string) (members : list (string * json)) : option json :=
  match members with
  | [] => None
  | (k', v) :: rest => if String.eqb k k' then Some v else assoc k rest
  end.

(** [v[k]] for a string key [k]: only a dict can answer, a missing key is a
    [KeyError], every other kind of value is a [TypeError]. *)
Definition py_getitem (v : json) (k : string) : exn + json :=
  match v with
  | JObj members =>
      match assoc k members with
      | Some x => inr x
      | None => inl (KeyError k)
      end
  | _ => inl TypeError
  end.

(** What [for x in v] enumerates: the elements of a list, the keys of a dict,
    the characters of a string; anything else is not iterable. *)
Definition py_iter (v : json) : exn + list json :=
  match v with
  | JArr items => inr items
  | JObj members => inr (map (λ kv, JStr (fst kv)) members)
  | JStr s => inr (map (λ c, JStr (String c EmptyString)) (String.list_ascii_of_string s))
  | _ => inl TypeError
  end.

(** [v + ".tif"]: string concatenation is defined on [str] only. *)
Definition py_add_str (v : json) (suffix : string) : exn + string :=
  match v with
  | JStr s => inr (s +:+ suffix)
  | _ => inl TypeError
  end.

(** The bounding box [[left, top, right, bottom]]: four floats, carried as
    rationals (the scripts pass them on and never compute with them). *)
Record bbox : Type := BBox { left : Q; top : Q; right : Q; bottom : Q }.

(** The other values the scripts handle: arguments of [print] and what a
    function hands back ([VNone] when it ends without a [return]). *)
Inductive pyval : Type :=
| VNone
| VStr (s : string)
| VJson (v : json)
| VBox (b : bbox).

(** ** The [requests] library *)

Inductive method : Type := GET | POST.

Definition headers : Type := list (string * string).

Record response : Type := Response {
  status_code : Z;
  reason : string;
  url : string;
  body : option json          (* [None]: the body does not parse as JSON *)
}.

Definition str_int (z : Z) : string := NilZero.string_of_int (Z.to_int z).

(** [Response.raise_for_status]: the message of the [HTTPError] it raises, if
    it raises one.  Only the 4xx and 5xx classes do. *)
Definition http_error_msg (r : response) : option string :=
  if (400 <=? status_code r) && (status_code r <? 500) then
    Some (str_int (status_code r) +:+ " Client Error: " +:+ reason r
            +:+ " for url: " +:+ url r)
  else if (500 <=? status_code r) && (status_code r <? 600) then
    Some (str_int (status_code r) +:+ " Server Error: " +:+ reason r
            +:+ " for url: " +:+ url r)
  else None.

(** ** GDAL and the local file system *)

Inductive region : Type :=
| FullScene
| ProjWin (bounding_box : bbox).

(** What lies at an output path. *)
Inductive artifact : Type :=
| Complete (src : string) (r : region)
| Truncated (src : string) (r : region).

(** What a [gdal.Translate] call that did not produce a dataset left at its
    destination. *)
Inductive dest_effect : Type :=
| Untouched
| Removed
| Partial.

(** The three ways a [gdal.Translate] call can end: it returns a dataset (the
    destination then holds the requested raster), it returns [None], or it
    raises. *)
Inductive gdal_result : Type :=
| GdalDataset
| GdalNone (d : dest_effect)
| GdalRaise (msg : string) (d : dest_effect).

(** ** The observable world *)

Inductive event : Type :=
| EvPrint (args : list pyval)
| EvRequest (m : method) (u : string) (h : headers)
| EvTranslate (dest src : string) (r : region)
| EvSleep (seconds : Z).

Record world : Type := World {
  trace : list event;                 (* oldest event first *)
  files : gmap string artifact
}.

Definition initial_world : world := World [] ∅.

Inductive http_result : Type :=
| Answer (r : response)
| NoAnswer (msg : string).

(** The collaborators.  Each may look at everything that happened so far.
    [str_other] is Python's [str()] on values that are not strings; the scripts
    reach it only through f-strings over malformed bodies. *)
Record env : Type := Env {
  http : world → method → string → headers → http_result;
  gdal : world → string → string → region → gdal_result;
  str_other : json → string
}.

(** ** Computations: state, trace and exceptions *)

Inductive outcome (A : Type) : Type :=
| Ok (a : A)
| Raise (e : exn).
Arguments Ok {A} a.
Arguments Raise {A} e.

Definition M (A : Type) : Type := world → outcome A * world.

Definition ret {A} (a : A) : M A := λ w, (Ok a, w).

Definition bind {A B} (m : M A) (k : A → M B) : M B :=
  λ w, match m w with
       | (Ok a, w') => k a w'
       | (Raise e, w') => (Raise e, w')
       end.

Definition raise {A} (e : exn) : M A := λ w, (Raise e, w).

Definition lift {A} (r : exn + A) : M A :=
  match r with
  | inl e => raise e
  | inr a => ret a
  end.

Declare Scope py_scope.
Delimit Scope py_scope with py.
Notation "x <- m ;; k" := (bind m (λ x, k))
  (at level 100, m at next level, right associativity) : py_scope.
Notation "m ;;; k" := (bind m (λ _, k))
  (at level 100, right associativity) : py_scope.
Open Scope py_scope.

Definition emit (e : event) : M unit :=
  λ w, (Ok tt, World (trace w ++ [e]) (files w)).

Definition print (args : list pyval) : M unit := emit (EvPrint args).

Definition time_sleep (seconds : Z) : M unit := emit (EvSleep seconds).

(** [try: m  except requests.exceptions.HTTPError as e: ...]: [Some (str e)]
    when the handler is entered, [None] when [m] went through; every other
    exception keeps travelling. *)
Definition except_HTTPError (m : M unit) : M (option string) :=
  λ w, match m w with
       | (Ok _, w') => (Ok None, w')
       | (Raise (HTTPError msg), w') => (Ok (Some msg), w')
       | (Raise e, w') => (Raise e, w')
       end.

(** A loop body either falls through to the next item or executes a
    [return]. *)
Inductive flow (R : Type) : Type :=
| Next
| Return (r : R).
Arguments Next {R}.
Arguments Return {R} r.

Fixpoint for_in {A R} (xs : list A) (body : A → M (flow R)) : M (flow R) :=
  match xs with
  | [] => ret Next
  | x :: rest =>
      f <- body x ;;
      match f with
      | Next => for_in rest body
      | Return r => ret (Return r)
      end
  end.

Section Collaborators.
Context (E : env).

(** f-string interpolation [f"{v}"]. *)
Definition fmt (v : json) : string :=
  match v with
  | JStr s => s
  | _ => str_other E v
  end.

Definition requests_send (m : method) (u : string) (h : headers) : M response :=
  λ w, let w' := World (trace w ++ [EvRequest m u h]) (files w) in
       match http E w m u h with
       | Answer r => (Ok r, w')
       | NoAnswer msg => (Raise (ConnectionError msg), w')
       end.

Definition requests_get (u : string) (h : headers) : M response :=
  requests_send GET u h.

Definition requests_post (u : string) (h : headers) : M response :=
  requests_send POST u h.

Definition raise_for_status (r : response) : M unit :=
  match http_error_msg r with
  | Some msg => raise (HTTPError msg)
  | None => ret tt
  end.

Definition response_json (r : response) : M json :=
  match body r with
  | Some v => ret v
  | None => raise JSONDecodeError
  end.

Definition getitem (v : json) (k : string) : M json := lift (py_getitem v k).

Definition after_translate (d : dest_effect) (dest src : string) (r : region)
    (fs : gmap string artifact) : gmap string artifact :=
  match d with
  | Untouched => fs
  | Removed => delete dest fs
  | Partial => <[dest := Truncated src r]> fs
  end.

(** [gdal.Translate(dest, src, options=...)]; the value is [true] when a
    dataset object is returned and [false] when [None] is. *)
Definition gdal_Translate (dest src : string) (r : region) : M bool :=
  λ w, let t := trace w ++ [EvTranslate dest src r] in
       match gdal E w dest src r with
       | GdalDataset => (Ok true, World t (<[dest := Complete src r]> (files w)))
       | GdalNone d => (Ok false, World t (after_translate d dest src r (files w)))
       | GdalRaise msg d =>
           (Raise (GdalError msg), World t (after_translate d dest src r (files w)))
       end.

(** [posixpath.join] of two components. *)
Definition os_path_join (a b : string) : string :=
  if String.prefix "/" b then b
  else if String.eqb a "" then a +:+ b
  else if String.eqb (String.substring (String.length a - 1) 1 a) "/" then a +:+ b
  else a +:+ "/" +:+ b.
End Collaborators.

(** ** [wapor_ingest.py] *)

Module wapor_ingest.
Section Script.
Context (E : env).
(** The key the user pastes at the top of the script. *)
Context (api_token : string).

Definition workspace : string := "WAPOR_2".

Definition authorization_request_url : string :=
  "https://io.apps.fao.org/gismgr/api/v1/iam/sign-in".

Definition authorization_headers : headers := [("X-GISMGR-API-KEY", api_token)].

(** Lines 28-29: the sign-in request and the token read from its body. *)
Definition access_token : M json :=
  authorization_request_response <-
    requests_post E authorization_request_url authorization_headers ;;
  j <- response_json authorization_request_response ;;
  r <- getitem j "response" ;;
  getitem r "accessToken".

Definition tif_headers (access_token : json) : headers :=
  [("Authorization", "Bearer " +:+ fmt E access_token)].

Definition list_cubes : M pyval :=
  let cubes_request_url :=
    "https://io.apps.fao.org/gismgr/api/v1/catalog/workspaces/WAPOR_2/cubes" in
  cubes_request_response <- requests_get E cubes_request_url [] ;;
  j <- response_json cubes_request_response ;;
  r <- getitem j "response" ;;
  inp_cubes_list <- getitem r "items" ;;
  print [VStr "Please select appropriate code from list:"] ;;;
  xs <- lift (py_iter inp_cubes_list) ;;
  for_in (R := pyval) xs (λ x,
    caption <- getitem x "caption" ;;
    code <- getitem x "code" ;;
    print [VJson caption; VStr " : "; VJson code] ;;;
    ret Next) ;;;
  ret VNone.

(** The body of the [for] loop of [download_data], lines 59-80. *)
Definition export_raster (tif_headers : headers)
    (cubecode output_folder_name : string) (coverage : bool)
    (bounding_box : bbox) (x : json) : M (flow string) :=
  shown <- getitem x "rasterId" ;;
  print [VStr "Exporting: "; VJson shown] ;;;
  rasterid <- getitem x "rasterId" ;;
  let tif_request_url :=
    "https://io.apps.fao.org/gismgr/api/v1/download/" +:+ workspace
      +:+ "?requestType=MAPSET_RASTER&cubeCode=" +:+ cubecode
      +:+ "&rasterId=" +:+ fmt E rasterid in
  tif_request_response <- requests_get E tif_request_url tif_headers ;;
  failed <- except_HTTPError (raise_for_status tif_request_response) ;;
  match failed with
  | Some e => ret (Return ("Error: " +:+ e))
  | None =>
      j <- response_json tif_request_response ;;
      r <- getitem j "response" ;;
      tif_url <- getitem r "downloadUrl" ;;
      file_name <- lift (py_add_str rasterid ".tif") ;;
      let output_filepath := os_path_join output_folder_name file_name in
      (if coverage then
         print [VStr "Exporting for bounding box:"; VBox bounding_box] ;;;
         gdal_Translate E output_filepath ("/vsicurl/" +:+ fmt E tif_url)
           (ProjWin bounding_box)
       else
         print [VStr "Exporting total data coverage"] ;;;
         gdal_Translate E output_filepath ("/vsicurl/" +:+ fmt E tif_url)
           FullScene) ;;;
      time_sleep 10 ;;;
      ret Next
  end.

Definition rasters_url (cubecode : string) : string :=
  "https://io.apps.fao.org/gismgr/api/v1/catalog/workspaces/WAPOR_2/cubes/"
    +:+ cubecode +:+ "/rasters".

Definition download_data (tif_headers : headers)
    (cubecode output_folder_name : string) (coverage : bool)
    (bounding_box : bbox) : M string :=
  print [VStr "Checking available datasets for: "; VStr cubecode] ;;;
  let rasterid_request_url := rasters_url cubecode in
  rasterid_request_response <- requests_get E rasterid_request_url [] ;;
  failed <- except_HTTPError (raise_for_status rasterid_request_response) ;;
  match failed with
  | Some e =>
      list_cubes ;;;
      ret ("Error: " +:+ e)
  | None =>
      j <- response_json rasterid_request_response ;;
      r <- getitem j "response" ;;
      inp_cubecodes <- getitem r "items" ;;
      xs <- lift (py_iter inp_cubecodes) ;;
      f <- for_in xs (export_raster tif_headers cubecode output_folder_name
                        coverage bounding_box) ;;
      match f with
      | Return result => ret result
      | Next => ret "Exports Done"
      end
  end.

(** The defaults of [download_data]'s keyword parameters. *)
Definition default_coverage : bool := false.
Definition default_bounding_box : bbox := BBox 30 (61 # 2) (63 # 2) (57 # 2).

Definition outfolder : string := "D:\output_Wapor_folder\test_folder".
Definition ccode : string := "L1_AETI_A".
Definition b_box : bbox := BBox 30 (61 # 2) (63 # 2) (57 # 2).

(** The script run as a program: the module-level sign-in, then the
    [__main__] block.  [get_full_coverage] is the switch the user sets
    there (the file ships with [True]). *)
Definition main (get_full_coverage : bool) : M unit :=
  token <- access_token ;;
  output <- download_data (tif_headers token) ccode outfolder
              get_full_coverage b_box ;;
  print [VStr "output"].
End Script.
End wapor_ingest.

(** ** Python dicts built from JSON values *)

Definition num_of_bool (b : bool) : Q := if b then 1 else 0.

(** Python's [==] between two dict keys read from a JSON document: strings
    are equal to strings only, [None] to [None] only, and booleans and
    numbers compare by value ([True == 1], [False == 0]). *)
Definition py_key_eqb (a b : json) : bool :=
  match a, b with
  | JNull, JNull => true
  | JStr s, JStr t => String.eqb s t
  | JNum p, JNum q => Qeq_bool p q
  | JBool x, JBool y => Bool.eqb x y
  | JBool x, JNum q => Qeq_bool (num_of_bool x) q
  | JNum q, JBool x => Qeq_bool q (num_of_bool x)
  | _, _ => false
  end.

(** Lists and dicts cannot be keys. *)
Definition hashable (v : json) : bool :=
  match v with
  | JArr _ | JObj _ => false
  | _ => true
  end.

(** A dict as the list of its items, oldest first. *)
Definition dict : Type := list (json * json).

(** [d[k] = v]: an equal key keeps its place and its key object and takes the
    new value; a new key goes to the end. *)
Fixpoint dict_set (k v : json) (d : dict) : dict :=
  match d with
  | [] => [(k, v)]
  | (k', v') :: rest =>
      if py_key_eqb k' k then (k', v) :: rest else (k', v') :: dict_set k v rest
  end.

Fixpoint dict_get (k : json) (d : dict) : option json :=
  match d with
  | [] => None
  | (k', v') :: rest => if py_key_eqb k' k then Some v' else dict_get k rest
  end.

(** The comprehension [{key(x): value(x) for x in xs}] (Python 3.8 and
    later): for each element the key is evaluated, then the value, then the
    item is stored, which is where an unhashable key raises. *)
Fixpoint dict_comp (key value : json → exn + json) (xs : list json)
    (acc : dict) : exn + dict :=
  match xs with
  | [] => inr acc
  | x :: rest =>
      match key x with
      | inl e => inl e
      | inr k =>
          match value x with
          | inl e => inl e
          | inr v =>
              if hashable k then dict_comp key value rest (dict_set k v acc)
              else inl TypeError
          end
      end
  end.

(** ** [wapor_python.py]: the authorisation cells *)

Module wapor_python.
Section Script.
Context (E : env).
Context (api_token : string).

Definition authorization_request_url : string :=
  "https://io.apps.fao.org/gismgr/api/v1/iam/sign-in".

Definition authorization_headers : headers := [("X-GISMGR-API-KEY", api_token)].

(** Lines 46-62. *)
Definition access_token : M json :=
  authorization_request_response <-
    requests_post E authorization_request_url authorization_headers ;;
  raise_for_status authorization_request_response ;;;
  response_json authorization_request_response ;;;
  j <- response_json authorization_request_response ;;
  r <- getitem j "response" ;;
  getitem r "accessToken".

Definition workspace : string := "WAPOR_2".
Definition cubecode : string := "L1_AETI_A".
Definition rasterid : string := "L1_AETI_16".

Definition tif_request_url : string :=
  "https://io.apps.fao.org/gismgr/api/v1/download/" +:+ workspace
    +:+ "?requestType=MAPSET_RASTER&cubeCode=" +:+ cubecode
    +:+ "&rasterId=" +:+ rasterid.

(** Lines 68-86: the download location of the example raster. *)
Definition tif_url (access_token : json) : M json :=
  let tif_headers := [("Authorization", "Bearer " +:+ fmt E access_token)] in
  tif_request_response <- requests_get E tif_request_url tif_headers ;;
  raise_for_status tif_request_response ;;;
  response_json tif_request_response ;;;
  j <- response_json tif_request_response ;;
  r <- getitem j "response" ;;
  getitem r "downloadUrl".

Definition cubes_request_url : string :=
  "https://io.apps.fao.org/gismgr/api/v1/catalog/workspaces/WAPOR_2/cubes".

(** Lines 124-130: the dict of cube codes and their captions. *)
Definition cubes : M dict :=
  cubes_request_response <- requests_get E cubes_request_url [] ;;
  raise_for_status cubes_request_response ;;;
  j <- response_json cubes_request_response ;;
  r <- getitem j "response" ;;
  items <- getitem r "items" ;;
  xs <- lift (py_iter items) ;;
  lift (dict_comp (λ x, py_getitem x "code") (λ x, py_getitem x "caption") xs []).

Definition rasterid_request_url : string :=
  "https://io.apps.fao.org/gismgr/api/v1/catalog/workspaces/WAPOR_2/cubes/"
    +:+ "L1_NPP_D" +:+ "/rasters".

(** [x["DEKAD"]["caption"]]. *)
Definition dekad_caption (x : json) : exn + json :=
  match py_getitem x "DEKAD" with
  | inl e => inl e
  | inr dekad => py_getitem dekad "caption"
  end.

(** Lines 137-144: the dict of raster ids and the captions of their
    dekads. *)
Definition rasters : M dict :=
  rasterid_request_response <- requests_get E rasterid_request_url [] ;;
  raise_for_status rasterid_request_response ;;;
  j <- response_json rasterid_request_response ;;
  r <- getitem j "response" ;;
  items <- getitem r "items" ;;
  xs <- lift (py_iter items) ;;
  lift (dict_comp (λ x, py_getitem x "rasterId") dekad_caption xs []).
End Script.
End wapor_python.

(** ** Reading a response without running the script *)

(** [r.json()["response"][k]] as a pure function: [None] when any of the three
    steps raises. *)
Definition payload (r : response) (k : string) : option json :=
  match body r with
  | Some j =>
      match py_getitem j "response" with
      | inr rr =>
          match py_getitem rr k with
          | inr v => Some v
          | inl _ => None
          end
      | inl _ => None
      end
  | None => None
  end.

Definition cubes_url : string :=
  "https://io.apps.fao.org/gismgr/api/v1/catalog/workspaces/WAPOR_2/cubes".

Definition download_url (cubecode rasterid : string) : string :=
  "https://io.apps.fao.org/gismgr/api/v1/download/" +:+ wapor_ingest.workspace
    +:+ "?requestType=MAPSET_RASTER&cubeCode=" +:+ cubecode
    +:+ "&rasterId=" +:+ rasterid.

(** The line [list_cubes] prints for one catalog entry, when the entry has
    both fields. *)
Definition cube_line (x : json) : option event :=
  match py_getitem x "caption", py_getitem x "code" with
  | inr caption, inr code => Some (EvPrint [VJson caption; VStr " : "; VJson code])
  | _, _ => None
  end.

(** The destinations of the [gdal.Translate] calls of a trace, in order. *)
Fixpoint translate_dests (l : list event) : list string :=
  match l with
  | [] => []
  | EvTranslate dest _ _ :: rest => dest :: translate_dests rest
  | _ :: rest => translate_dests rest
  end.

Fixpoint translate_regions (l : list event) : list region :=
  match l with
  | [] => []
  | EvTranslate _ _ r :: rest => r :: translate_regions rest
  | _ :: rest => translate_regions rest
  end.

(** The URLs requested in a trace, in order. *)
Fixpoint requested (l : list event) : list string :=
  match l with
  | [] => []
  | EvRequest _ u _ :: rest => u :: requested rest
  | _ :: rest => requested rest
  end.

(** Pacing: every [gdal.Translate] call is directly followed by a sleep of 10.
    A call that ends the trace is accepted only when [cut] is set (the call
    raised and nothing ran after it). *)
Fixpoint paced (cut : bool) (l : list event) : bool :=
  match l with
  | [] => true
  | EvTranslate _ _ _ :: rest =>
      match rest with
      | [] => cut
      | EvSleep s :: _ => (s =? 10) && paced cut rest
      | _ => false
      end
  | _ :: rest => paced cut rest
  end.

Definition gdal_raised {A} (o : outcome A) : bool :=
  match o with
  | Raise (GdalError _) => true
  | _ => false
  end.

(** ** What a run is expected to print, request and write *)

Definition coverage_region (coverage : bool) (bounding_box : bbox) : region :=
  if coverage then ProjWin bounding_box else FullScene.

Definition coverage_print (coverage : bool) (bounding_box : bbox) : event :=
  if coverage then EvPrint [VStr "Exporting for bounding box:"; VBox bounding_box]
  else EvPrint [VStr "Exporting total data coverage"].

(** What an item prints and requests before GDAL is called. *)
Definition fetch_prelude (h : headers) (cubecode : string) (coverage : bool)
    (bounding_box : bbox) (rasterid : string) : list event :=
  [EvPrint [VStr "Exporting: "; VJson (JStr rasterid)];
   EvRequest GET (download_url cubecode rasterid) h;
   coverage_print coverage bounding_box].

Definition dest_of (output_folder_name rasterid : string) : string :=
  os_path_join output_folder_name (rasterid +:+ ".tif").

Definition source_of (E : env) (tif_url : json) : string :=
  "/vsicurl/" +:+ fmt E tif_url.

Definition checking (cubecode : string) : event :=
  EvPrint [VStr "Checking available datasets for: "; VStr cubecode].

(** The events of one raster that is resolved and handed to GDAL. *)
Definition fetched_events (E : env) (h : headers) (cubecode out : string)
    (coverage : bool) (bounding_box : bbox) (loc : string → json)
    (id : string) : list event :=
  fetch_prelude h cubecode coverage bounding_box id
    ++ [EvTranslate (dest_of out id) (source_of E (loc id))
          (coverage_region coverage bounding_box);
        EvSleep 10].

Definition fetched_files (E : env) (out : string) (coverage : bool)
    (bounding_box : bbox) (loc : string → json)
    (fs : gmap string artifact) (ids : list string) : gmap string artifact :=
  foldl (λ acc id,
           <[dest_of out id :=
               Complete (source_of E (loc id))
                        (coverage_region coverage bounding_box)]> acc)
        fs ids.


(** ** Trace invariants

    A property [P cut l] of the events [l] a run adds to the trace, where
    [cut] tells whether the run was ended by [gdal.Translate] raising.  An
    invariant holds of nothing, is kept by appending, by every event other
    than a [gdal.Translate] call, and by a call on a [good] region provided
    the sleep of 10 comes right after it (or the call is what ended the
    run). *)
Class TraceInvariant (P : bool → list event → Prop) : Type := {
  good : region → Prop;
  inv_nil : ∀ cut, P cut [];
  inv_app : ∀ cut l1 l2, P false l1 → P cut l2 → P cut (l1 ++ l2);
  inv_print : ∀ args, P false [EvPrint args];
  inv_request : ∀ m u h, P false [EvRequest m u h];
  inv_sleep : ∀ s, P false [EvSleep s];
  inv_fetch : ∀ dest src r, good r → P false [EvTranslate dest src r; EvSleep 10];
  inv_cut : ∀ dest src r, good r → P true [EvTranslate dest src r]
}.

(** The computation [m] keeps [P]: whatever the world it starts in, it only
    appends to the trace, and what it appends satisfies [P]. *)
Definition keeps (P : bool → list event → Prop) {A} (m : M A) : Prop :=
  ∀ w, ∃ new, trace (snd (m w)) = trace w ++ new
              ∧ P (gdal_raised (fst (m w))) new.

Definition is_paced (cut : bool) (l : list event) : Prop := paced cut l = true.

(** Every [gdal.Translate] call of [l] is on the region [reg]. *)
Definition translates_only (reg : region) (_ : bool) (l : list event) : Prop :=
  Forall (eq reg) (translate_regions l).

(** ** What a computation is seen to do

    [behaves Q R m]: from any world, [m] only appends events that satisfy
    [Q], leaves every file alone that is not the destination of one of its
    [gdal.Translate] calls, returns only values that satisfy [R], and never
    ends with an [HTTPError]. *)
Definition behaves (Q : event → Prop) {A} (R : A → Prop) (m : M A) : Prop :=
  ∀ w, ∃ new,
    trace (snd (m w)) = trace w ++ new
    ∧ Forall Q new
    ∧ (∀ p, p ∉ translate_dests new → files (snd (m w)) !! p = files w !! p)
    ∧ match fst (m w) with
      | Ok a => R a
      | Raise (HTTPError _) => False
      | Raise _ => True
      end.

(** The events a call [download_data(cubecode, out, coverage, bounding_box)]
    with the headers [h] can add. *)
Definition download_event (h : headers) (cubecode out : string)
    (coverage : bool) (bounding_box : bbox) (e : event) : Prop :=
  match e with
  | EvPrint _ => True
  | EvRequest m u hd =>
      m = GET
      ∧ ((hd = [] ∧ (u = wapor_ingest.rasters_url cubecode ∨ u = cubes_url))
         ∨ (hd = h ∧ ∃ rid, u = download_url cubecode rid))
  | EvTranslate dest src r =>
      (∃ name, dest = os_path_join out (name +:+ ".tif"))
      ∧ (∃ location, src = "/vsicurl/" +:+ location)
      ∧ r = coverage_region coverage bounding_box
  | EvSleep s => s = 10
  end.

(** What [download_data] can return. *)
Definition download_result (s : string) : Prop :=
  s = "Exports Done"
  ∨ ∃ r e, 400 ≤ status_code r < 600 ∧ http_error_msg r = Some e
           ∧ s = "Error: " +:+ e.

(** The seconds slept in a trace. *)
Fixpoint total_sleep (l : list event) : Z :=
  match l with
  | [] => 0
  | EvSleep s :: rest => s + total_sleep rest
  | _ :: rest => total_sleep rest
  end.

(** Values over which [for x in v] runs no iteration although [v] is not a
    list: the empty dict and the empty string. *)
Definition empty_non_list (v : json) : bool :=
  match v with
  | JObj [] => true
  | JStr EmptyString => true
  | _ => false
  end.

Definition is_list (v : json) : bool :=
  match v with
  | JArr _ => true
  | _ => false
  end.

Definition is_str (v : json) : bool :=
  match v with
  | JStr _ => true
  | _ => false
  end.

(** The exceptions the read [r.json()["response"][k]] can raise. *)
Definition read_error (k : string) (e : exn) : Prop :=
  e = JSONDecodeError ∨ e = KeyError "response" ∨ e = KeyError k ∨ e = TypeError.


(** A listing request that yields no list of rasters and no HTTP error
    either: it got no answer, or an answer outside 4xx/5xx whose body is not
    JSON or lacks [response.items]. *)
Definition listing_unusable (res : http_result) : Prop :=
  match res with
  | NoAnswer _ => True
  | Answer r => http_error_msg r = None ∧ payload r "items" = None
  end.

(** The value under the string key [s] after the pairs have been stored one
    after the other: that of the last pair with that key. *)
Fixpoint last_with (s : string) (pairs : list (string * json)) : option json :=
  match pairs with
  | [] => None
  | (c, v) :: rest =>
      match last_with s rest with
      | Some later => Some later
      | None => if String.eqb c s then Some v else None
      end
  end.

(** The dict after the pairs have been stored, in order, under their string
    keys. *)
Definition store_all (pairs : list (string * json)) (acc : dict) : dict :=
  foldl (λ d cv, dict_set (JStr (fst cv)) (snd cv) d) acc pairs.

(** ** A simulated service

    One cube with its raster ids, a catalog, and a list of raster ids whose
    download resolution answers 500.  Protected endpoints insist on the
    bearer token handed out at sign-in. *)

Definition issued_token : string := "t0k3n".

Definition ok_json (u : string) (v : json) : http_result :=
  Answer (Response 200 "OK" u (Some (JObj [("response", v)]))).

Definition catalog_items : json :=
  JArr [JObj [("code", JStr "L1_AETI_A");
              ("caption", JStr "Actual EvapoTranspiration and Interception (Annual)")];
        JObj [("code", JStr "L1_NPP_D");
              ("caption", JStr "Net Primary Production (Dekadal)")]].

Definition raster_item (rasterid : string) : json :=
  JObj [("rasterId", JStr rasterid); ("DEKAD", JObj [("caption", JStr "n/a")])].

Definition cdn (rasterid : string) : string :=
  "https://storage.example/" +:+ rasterid +:+ ".tif".

Definition fao_http (cube : string) (ids failing : list string)
    (_ : world) (m : method) (u : string) (h : headers) : http_result :=
  match m with
  | POST =>
      if String.eqb u wapor_ingest.authorization_request_url
      then ok_json u (JObj [("accessToken", JStr issued_token)])
      else Answer (Response 404 "Not Found" u None)
  | GET =>
      if String.eqb u cubes_url then ok_json u (JObj [("items", catalog_items)])
      else if String.eqb u (wapor_ingest.rasters_url cube)
      then ok_json u (JObj [("items", JArr (map raster_item ids))])
      else
        match find (λ id, String.eqb u (download_url cube id)) ids with
        | Some id =>
            if negb (bool_decide (h = [("Authorization", "Bearer " +:+ issued_token)]))
            then Answer (Response 401 "Unauthorized" u None)
            else if existsb (String.eqb id) failing
            then Answer (Response 500 "Internal Server Error" u None)
            else ok_json u (JObj [("downloadUrl", JStr (cdn id))])
        | None => Answer (Response 404 "Not Found" u None)
        end
  end.

Definition gdal_fine (_ : world) (_ _ : string) (_ : region) : gdal_result :=
  GdalDataset.

Definition no_str (_ : json) : string := "<object>".

Definition two_rasters : list string := ["L1_AETI_16"; "L1_AETI_17"].

Definition fao : env := Env (fao_http "L1_AETI_A" two_rasters []) gdal_fine no_str.

Definition fao_first_500 : env :=
  Env (fao_http "L1_AETI_A" two_rasters ["L1_AETI_16"]) gdal_fine no_str.

Definition fao_no_rasters : env := Env (fao_http "L1_AETI_A" [] []) gdal_fine no_str.

Definition bearer : headers := [("Authorization", "Bearer " +:+ issued_token)].

Definition three_rasters : list string := ["L1_AETI_16"; "L1_AETI_17"; "L1_AETI_18"].

Definition fao_middle_500 : env :=
  Env (fao_http "L1_AETI_A" three_rasters ["L1_AETI_17"]) gdal_fine no_str.

(** A sign-in endpoint that refuses the key with 401 and still sends a body
    carrying an [accessToken] field. *)
Definition stale_http (_ : world) (m : method) (u : string) (_ : headers)
    : http_result :=
  match m with
  | POST =>
      Answer (Response 401 "Unauthorized" u
                (Some (JObj [("response", JObj [("accessToken", JStr "stale")])])))
  | GET => Answer (Response 401 "Unauthorized" u None)
  end.

Definition fao_stale : env := Env stale_http gdal_fine no_str.

(** A box with west > east and north < south. *)
Definition inverted_box : bbox := BBox (63 # 2) (57 # 2) 30 (61 # 2).

(** A service whose rasters listing answers 200 with a page that is not
    JSON, and whose catalog does not answer at all. *)
Definition html_http (_ : world) (m : method) (u : string) (_ : headers)
    : http_result :=
  if String.eqb u cubes_url then NoAnswer "connection reset"
  else Answer (Response 200 "OK" u None).

Definition fao_html : env := Env html_http gdal_fine no_str.

(** A service that knows no cube: every listing is refused with 404 and the
    catalog does not answer. *)
Definition down_http (_ : world) (m : method) (u : string) (_ : headers)
    : http_result :=
  if String.eqb u cubes_url then NoAnswer "connection reset"
  else Answer (Response 404 "Not Found" u None).

Definition fao_down : env := Env down_http gdal_fine no_str.

(** A service answering every request with the same body. *)
Definition fixed_http (status : Z) (v : json) (_ : world) (m : method)
    (u : string) (_ : headers) : http_result :=
  Answer (Response status "-" u (Some (JObj [("response", v)]))).

Definition fao_fixed (status : Z) (v : json) : env :=
  Env (fixed_http status v) gdal_fine no_str.

(** The usual service, except that the second raster of the listing comes
    without its [rasterId]. *)
Definition gap_http (w : world) (m : method) (u : string) (h : headers)
    : http_result :=
  if String.eqb u (wapor_ingest.rasters_url "L1_AETI_A")
  then ok_json u (JObj [("items", JArr [raster_item "L1_AETI_16";
                                        JObj [("DEKAD", JNull)]])])
  else fao_http "L1_AETI_A" two_rasters [] w m u h.

Definition fao_gap : env := Env gap_http gdal_fine no_str.

(** A service that has the cube [L1_NPP_D] only, without rasters. *)
Definition fao_other : env := Env (fao_http "L1_NPP_D" [] []) gdal_fine no_str.

(** The catalog of the usual service, sent with status 503. *)
Definition unavailable_http (w : world) (m : method) (u : string) (h : headers)
    : http_result :=
  if String.eqb u cubes_url
  then Answer (Response 503 "Service Unavailable" u
                 (Some (JObj [("response", JObj [("items", catalog_items)])])))
  else fao_http "L1_AETI_A" two_rasters [] w m u h.

Definition fao_unavailable : env := Env unavailable_http gdal_fine no_str.

(** The usual service with a rasters listing for [L1_NPP_D] whose second
    entry has no [DEKAD]. *)
Definition dekad_http (w : world) (m : method) (u : string) (h : headers)
    : http_result :=
  if String.eqb u wapor_python.rasterid_request_url
  then ok_json u (JObj [("items", JArr [raster_item "L1_NPP_D_0901";
                                        JObj [("rasterId", JStr "L1_NPP_D_0902")]])])
  else fao_http "L1_AETI_A" two_rasters [] w m u h.

Definition fao_dekad : env := Env dekad_http gdal_fine no_str.

(** A service in an outage: every request is answered 503 with a page that
    is not JSON. *)
Definition outage_http (_ : world) (_ : method) (u : string) (_ : headers)
    : http_result :=
  Answer (Response 503 "Service Unavailable" u None).

Definition fao_outage : env := Env outage_http gdal_fine no_str.


(** [answers E m u h r]: the service answers the request with [r] whenever it
    is asked, whatever happened before. *)
Definition answers (E : env) (m : method) (u : string) (h : headers)
    (r : response) : Prop :=
  ∀ w, http E w m u h = Answer r.

(** * Properties *)

(** ** Running the pieces *)

Lemma world_eta (w : world) : World (trace w) (files w) = w.
Proof. by destruct w. Qed.

Lemma bind_ok {A B} (m : M A) (k : A → M B) w a w' :
  m w = (Ok a, w') → bind m k w = k a w'.
Proof. unfold bind. by intros ->. Qed.

Lemma bind_raise {A B} (m : M A) (k : A → M B) w e w' :
  m w = (Raise e, w') → bind m k w = (Raise e, w').
Proof. unfold bind. by intros ->. Qed.

Lemma payload_inv r k v :
  payload r k = Some v →
  ∃ j rr, body r = Some j ∧ py_getitem j "response" = inr rr
          ∧ py_getitem rr k = inr v.
Proof.
  unfold payload. intros H.
  destruct (body r) as [j|] eqn:Hb; [|done].
  destruct (py_getitem j "response") as [|rr] eqn:Hr; [done|].
  destruct (py_getitem rr k) as [|v'] eqn:Hk; [done|].
  injection H as <-. by exists j, rr.
Qed.

(** The three-step read [r.json()["response"][k]] hands [payload r k] to
    whatever follows it. *)
Lemma read_payload {B} r k v (K : json → M B) w :
  payload r k = Some v →
  (j <- response_json r ;; rr <- getitem j "response" ;;
   x <- getitem rr k ;; K x) w = K v w.
Proof.
  intros (j & rr & Hb & Hr & Hk)%payload_inv.
  unfold bind, response_json, getitem, lift, ret. by rewrite Hb, Hr, Hk.
Qed.

Lemma request_answered E m u h r w :
  http E w m u h = Answer r →
  requests_send E m u h w = (Ok r, World (trace w ++ [EvRequest m u h]) (files w)).
Proof. unfold requests_send. by intros ->. Qed.

Lemma status_passes r w :
  http_error_msg r = None →
  except_HTTPError (raise_for_status r) w = (Ok None, w).
Proof. unfold except_HTTPError, raise_for_status. by intros ->. Qed.

Lemma status_caught r msg w :
  http_error_msg r = Some msg →
  except_HTTPError (raise_for_status r) w = (Ok (Some msg), w).
Proof. unfold except_HTTPError, raise_for_status. by intros ->. Qed.

(** The message of an [HTTPError] opens with the status code. *)
Lemma http_error_msg_status r msg :
  http_error_msg r = Some msg →
  400 ≤ status_code r < 600 ∧
  ∃ detail, msg = str_int (status_code r) +:+ detail.
Proof.
  unfold http_error_msg. intros H.
  destruct ((400 <=? status_code r) && (status_code r <? 500)) eqn:H4.
  - injection H as <-. split; [lia | eauto].
  - destruct ((500 <=? status_code r) && (status_code r <? 600)) eqn:H5; [|done].
    injection H as <-. split; [lia | eauto].
Qed.

Lemma http_error_msg_none r :
  http_error_msg r = None ↔ ¬ (400 ≤ status_code r < 600).
Proof.
  unfold http_error_msg.
  destruct ((400 <=? status_code r) && (status_code r <? 500)) eqn:H4;
    [split; [done | lia] |].
  destruct ((500 <=? status_code r) && (status_code r <? 600)) eqn:H5;
    [split; [done | lia] |].
  split; [lia | done].
Qed.

(** ** [list_cubes] *)

Section ListCubes.
Context (E : env).

Lemma list_cubes_loop (items : list json) w :
  Forall (λ x, is_Some (cube_line x)) items →
  for_in (R := pyval) items (λ x,
    caption <- getitem x "caption" ;;
    code <- getitem x "code" ;;
    print [VJson caption; VStr " : "; VJson code] ;;;
    ret Next) w
  = (Ok Next, World (trace w ++ omap cube_line items) (files w)).
Proof.
  intros Hall. revert w.
  induction Hall as [|x items [ev Hx] _ IH]; intros w; simpl.
  - by rewrite app_nil_r, world_eta.
  - unfold cube_line in Hx |- *.
    unfold bind at 1. unfold getitem at 1, lift.
    destruct (py_getitem x "caption") as [|caption]; [done|]. cbn.
    unfold bind at 1. unfold getitem at 1, lift.
    destruct (py_getitem x "code") as [|code]; [done|]. cbn.
    rewrite IH. cbn. by rewrite <- app_assoc.
Qed.

Lemma list_cubes_run r items w :
  http E w GET cubes_url [] = Answer r →
  payload r "items" = Some (JArr items) →
  Forall (λ x, is_Some (cube_line x)) items →
  wapor_ingest.list_cubes E w
  = (Ok VNone,
     World (trace w ++ EvRequest GET cubes_url []
              :: EvPrint [VStr "Please select appropriate code from list:"]
              :: omap cube_line items)
           (files w)).
Proof.
  intros Hreq Hitems Hall. unfold wapor_ingest.list_cubes.
  erewrite bind_ok; [|by apply request_answered].
  rewrite (read_payload _ _ _ _ _ Hitems).
  erewrite bind_ok; [|reflexivity]. cbn [py_iter lift].
  erewrite bind_ok; [|reflexivity].
  erewrite bind_ok; [|by apply list_cubes_loop].
  cbn. by rewrite <- !app_assoc.
Qed.
End ListCubes.

(** ** One pass through the loop body *)

Section LoopBody.
Context (E : env) (h : headers) (cubecode output_folder_name : string).
Context (coverage : bool) (bounding_box : bbox).

Local Abbreviation body :=
  (wapor_ingest.export_raster E h cubecode output_folder_name coverage
     bounding_box).

(** Resolution refused: the body executes [return "Error: ..."]. *)
Lemma export_raster_refused x rid r e w :
  py_getitem x "rasterId" = inr rid →
  http E (World (trace w ++ [EvPrint [VStr "Exporting: "; VJson rid]]) (files w))
       GET (download_url cubecode (fmt E rid)) h = Answer r →
  http_error_msg r = Some e →
  body x w
  = (Ok (Return ("Error: " +:+ e)),
     World (trace w ++ [EvPrint [VStr "Exporting: "; VJson rid];
                        EvRequest GET (download_url cubecode (fmt E rid)) h])
           (files w)).
Proof.
  intros Hid Hreq He. unfold wapor_ingest.export_raster.
  unfold getitem. rewrite Hid. cbn [lift].
  erewrite bind_ok; [|reflexivity].
  erewrite bind_ok; [|reflexivity].
  erewrite bind_ok; [|reflexivity].
  erewrite bind_ok; [|by apply request_answered].
  erewrite bind_ok; [|by apply status_caught].
  cbn. by rewrite <- app_assoc.
Qed.

(** Resolution granted: the body reaches [gdal.Translate], and what happens
    next is decided by how that call ends. *)
Lemma export_raster_resolved x id r tif_url w :
  py_getitem x "rasterId" = inr (JStr id) →
  http E (World (trace w ++ [EvPrint [VStr "Exporting: "; VJson (JStr id)]])
                (files w))
       GET (download_url cubecode id) h = Answer r →
  http_error_msg r = None →
  payload r "downloadUrl" = Some tif_url →
  let dest := dest_of output_folder_name id in
  let src := source_of E tif_url in
  let reg := coverage_region coverage bounding_box in
  let before := trace w ++ fetch_prelude h cubecode coverage bounding_box id in
  body x w
  = match gdal E (World before (files w)) dest src reg with
    | GdalDataset =>
        (Ok Next,
         World (before ++ [EvTranslate dest src reg; EvSleep 10])
               (<[dest := Complete src reg]> (files w)))
    | GdalNone d =>
        (Ok Next,
         World (before ++ [EvTranslate dest src reg; EvSleep 10])
               (after_translate d dest src reg (files w)))
    | GdalRaise msg d =>
        (Raise (GdalError msg),
         World (before ++ [EvTranslate dest src reg])
               (after_translate d dest src reg (files w)))
    end.
Proof.
  intros Hid Hreq He Hurl dest src reg before.
  unfold wapor_ingest.export_raster.
  unfold getitem at 1 2. rewrite Hid. cbn [lift].
  erewrite bind_ok; [|reflexivity].
  erewrite bind_ok; [|reflexivity].
  erewrite bind_ok; [|reflexivity].
  erewrite bind_ok; [|by apply request_answered].
  erewrite bind_ok; [|by apply status_passes].
  cbv beta iota.
  rewrite (read_payload _ _ _ _ _ Hurl).
  erewrite bind_ok; [|reflexivity].
  subst dest src reg before.
  unfold fetch_prelude, coverage_region, coverage_print, dest_of, source_of.
  destruct coverage; unfold bind, print, time_sleep, emit, gdal_Translate, ret;
    cbn [trace files]; rewrite <- !app_assoc; cbn [app];
    destruct (gdal E _ _ _ _); cbn [trace files];
    rewrite <- ?app_assoc; reflexivity.
Qed.
End LoopBody.

(** ** Pacing as an invariant of computations *)

Lemma paced_weaken cut l : paced false l = true → paced cut l = true.
Proof.
  induction l as [|e l IH]; [done|].
  destruct e; cbn; try exact IH.
  destruct l as [|[] l']; try done.
  intros [Hs Hp]%andb_prop. rewrite Hs. cbn. by apply IH.
Qed.

Lemma paced_app cut l1 l2 :
  paced false l1 = true → paced cut l2 = true → paced cut (l1 ++ l2) = true.
Proof.
  intros H1 H2. induction l1 as [|e l1 IH]; [done|].
  destruct e; cbn in *; try (by apply IH).
  destruct l1 as [|[] l1']; try done.
  apply andb_prop in H1 as [Hs Hp]. cbn. rewrite Hs. cbn. by apply IH.
Qed.

(** Read off a paced trace: whatever follows a [gdal.Translate] call is the
    sleep of 10, and a call can stand last only where [cut] allows. *)
Lemma paced_split cut l1 dest src r l2 :
  paced cut (l1 ++ EvTranslate dest src r :: l2) = true →
  match l2 with
  | [] => cut = true
  | e :: _ => e = EvSleep 10
  end.
Proof.
  induction l1 as [|e l1 IH].
  - cbn. destruct l2 as [|[] l2]; try done.
    intros [Hs _]%andb_prop. apply Z.eqb_eq in Hs. by subst.
  - destruct e; cbn; try exact IH.
    destruct l1 as [|e' l1']; cbn.
    + done.
    + destruct e'; try done. intros [_ Hp]%andb_prop. by apply IH.
Qed.

Lemma translate_regions_app l1 l2 :
  translate_regions (l1 ++ l2) = translate_regions l1 ++ translate_regions l2.
Proof.
  induction l1 as [|e l1 IH]; [done|]. destruct e; cbn; by rewrite ?IH.
Qed.

#[export] Instance pacing_invariant : TraceInvariant is_paced.
Proof.
  split with (good := λ _, True); unfold is_paced; try done.
  intros cut l1 l2. apply paced_app.
Defined.

#[export] Instance region_invariant reg : TraceInvariant (translates_only reg).
Proof.
  split with (good := eq reg); unfold translates_only; cbn; try done.
  - intros _ l1 l2 H1 H2. rewrite translate_regions_app. by apply Forall_app.
  - intros _ _ r <-. by constructor.
  - intros _ _ r <-. by constructor.
Defined.

Section Keeping.
Context (P : bool → list event → Prop) `{!TraceInvariant P}.

Lemma keeps_ret {A} (a : A) : keeps P (ret a).
Proof. intros w. exists []. split; [by rewrite app_nil_r | apply inv_nil]. Qed.

Lemma keeps_raise {A} e : keeps P (raise (A := A) e).
Proof. intros w. exists []. split; [by rewrite app_nil_r | apply inv_nil]. Qed.

Lemma keeps_lift {A} (r : exn + A) : keeps P (lift r).
Proof. destruct r; [apply keeps_raise | apply keeps_ret]. Qed.

Lemma keeps_print args : keeps P (print args).
Proof. intros w. exists [EvPrint args]. split; [done | apply inv_print]. Qed.

Lemma keeps_sleep s : keeps P (time_sleep s).
Proof. intros w. exists [EvSleep s]. split; [done | apply inv_sleep]. Qed.

Lemma keeps_request E m u h : keeps P (requests_send E m u h).
Proof.
  intros w. exists [EvRequest m u h]. unfold requests_send.
  destruct (http E w m u h); (split; [done | apply inv_request]).
Qed.

Lemma keeps_bind {A B} (m : M A) (k : A → M B) :
  keeps P m → (∀ a, keeps P (k a)) → keeps P (bind m k).
Proof.
  intros Hm Hk w. destruct (Hm w) as (n1 & Ht1 & Hp1). unfold bind.
  destruct (m w) as [[a|e] w1]; cbn in *.
  - destruct (Hk a w1) as (n2 & Ht2 & Hp2). exists (n1 ++ n2).
    rewrite Ht2, Ht1, app_assoc. split; [done|]. by apply inv_app.
  - by exists n1.
Qed.

Lemma keeps_except m : keeps P m → keeps P (except_HTTPError m).
Proof.
  intros Hm w. destruct (Hm w) as (n & Ht & Hp). exists n.
  unfold except_HTTPError. by destruct (m w) as [[a|[]] w1].
Qed.

Lemma keeps_for_in {A R} (body : A → M (flow R)) xs :
  (∀ x, keeps P (body x)) → keeps P (for_in xs body).
Proof.
  intros Hbody. induction xs as [|x xs IH]; cbn [for_in].
  - apply keeps_ret.
  - apply keeps_bind; [done|]. intros [|r]; [done | apply keeps_ret].
Qed.

(** The one place a [gdal.Translate] call occurs: announced by a [print],
    followed by [time.sleep(10)]. *)
Lemma keeps_translate_then_sleep {B} E (c : bool) a1 a2 dest src r1 r2 (k : M B) :
  good (if c then r1 else r2) →
  keeps P k →
  keeps P (bind (if c then bind (print a1) (λ _, gdal_Translate E dest src r1)
                 else bind (print a2) (λ _, gdal_Translate E dest src r2))
                (λ _, bind (time_sleep 10) (λ _, k))).
Proof.
  intros Hgood Hk w.
  destruct c; unfold bind, print, time_sleep, emit, gdal_Translate;
    cbn [trace files];
    destruct (gdal E _ _ _ _); cbn [trace files fst snd];
    match goal with
    | |- context [k ?w1] =>
        destruct (Hk w1) as (n & Ht & Hp); destruct (k w1) as [[b|e] w2];
        cbn [trace files fst snd] in *; rewrite Ht; cbn [trace];
        rewrite <- !app_assoc; cbn [app]; eexists; (split; [reflexivity|]);
        match goal with
        | |- P ?cut (?e1 :: ?e2 :: ?e3 :: ?rest) =>
            change (P cut ([e1] ++ [e2; e3] ++ rest))
        end;
        (apply inv_app; [apply inv_print|]);
        (apply inv_app; [by apply inv_fetch | done])
    | |- _ =>
        rewrite <- !app_assoc; cbn [app]; eexists; (split; [reflexivity|]);
        match goal with
        | |- P ?cut [?e1; ?e2] => change (P cut ([e1] ++ [e2]))
        end;
        (apply inv_app; [apply inv_print | by apply inv_cut])
    end.
Qed.
End Keeping.

Create HintDb keeping.

#[local] Hint Resolve keeps_ret keeps_raise keeps_lift keeps_print
  keeps_sleep keeps_request : keeping.

Ltac keeps_auto :=
  repeat first
    [ match goal with
      | |- keeps ?P _ =>
          first
            [ apply (keeps_translate_then_sleep P);
                [first [ exact I | reflexivity
                       | match goal with H : good _ |- _ => exact H end ] |]
            | apply (keeps_bind P); [|intros ?]
            | apply (keeps_for_in P); intros ?
            | apply keeps_except ]
      end
    | match goal with
      | |- keeps _ (match ?x with _ => _ end) => destruct x
      end
    | solve [unfold getitem, response_json, raise_for_status, requests_get,
               requests_post; eauto with keeping typeclass_instances]
    | match goal with
      | |- keeps _ (response_json ?r) => unfold response_json
      | |- keeps _ (raise_for_status ?r) => unfold raise_for_status
      end ].

Section Traces.
Context (E : env) (h : headers) (cubecode output_folder_name : string).
Context (coverage : bool) (bounding_box : bbox).
Context (P : bool → list event → Prop) `{!TraceInvariant P}.
Context (Hgood : good (coverage_region coverage bounding_box)).

Lemma keeps_list_cubes : keeps P (wapor_ingest.list_cubes E).
Proof. unfold wapor_ingest.list_cubes. keeps_auto. Qed.

Lemma keeps_export_raster x :
  keeps P (wapor_ingest.export_raster E h cubecode output_folder_name coverage
             bounding_box x).
Proof. unfold wapor_ingest.export_raster. keeps_auto. Qed.

Lemma keeps_download_data :
  keeps P (wapor_ingest.download_data E h cubecode output_folder_name coverage
             bounding_box).
Proof.
  unfold wapor_ingest.download_data. keeps_auto.
Qed.
End Traces.

(** ** [download_data] *)

Lemma for_in_app {A R} (body : A → M (flow R)) xs ys w :
  for_in (xs ++ ys) body w
  = (f <- for_in xs body ;;
     match f with
     | Next => for_in ys body
     | Return r => ret (Return r)
     end) w.
Proof.
  revert w. induction xs as [|x xs IH]; intros w; [done|].
  cbn [for_in app]. unfold bind.
  destruct (body x w) as [[[|r]|e] w1]; [|done|done].
  rewrite IH. reflexivity.
Qed.




Section DownloadData.
Context (E : env) (h : headers) (cubecode out : string).
Context (coverage : bool) (bounding_box : bbox).

Local Abbreviation body :=
  (wapor_ingest.export_raster E h cubecode out coverage bounding_box).
Local Abbreviation run :=
  (wapor_ingest.download_data E h cubecode out coverage bounding_box).
Local Abbreviation listing := (wapor_ingest.rasters_url cubecode).

(** Whatever the service does, a run opens with its announcement and the
    rasters-listing request, and what follows satisfies every trace
    invariant that accepts the region the run translates. *)
Lemma download_data_opening P `{!TraceInvariant P} w :
  good (coverage_region coverage bounding_box) →
  ∃ rest,
    trace (snd (run w))
    = trace w ++ checking cubecode :: EvRequest GET listing [] :: rest
    ∧ P (gdal_raised (fst (run w))) rest.
Proof.
  intros Hgood.
  remember (run w) as res eqn:Hres.
  unfold wapor_ingest.download_data in Hres.
  unfold bind at 1 in Hres. unfold print, emit in Hres. cbv beta iota in Hres.
  unfold bind at 1 in Hres. unfold requests_get at 1, requests_send in Hres.
  destruct (http E _ GET listing []) as [r|msg]; cbn [trace files] in Hres.
  - match type of Hres with
    | _ = @bind ?A ?B ?m ?k ?w2 =>
        assert (Hp : keeps P (@bind A B m k)) by keeps_auto;
        destruct (Hp w2) as (rest & Ht & Hrest)
    end.
    rewrite <- Hres in Ht, Hrest. exists rest. rewrite Ht. cbn [trace].
    rewrite <- !app_assoc. by split.
  - subst res. exists []. cbn. rewrite <- app_assoc. split; [done|].
    apply inv_nil.
Qed.

(** The listing went through: the run is the loop over its items. *)
Lemma download_data_listed resp items w :
  http E (World (trace w ++ [checking cubecode]) (files w)) GET listing []
    = Answer resp →
  http_error_msg resp = None →
  payload resp "items" = Some (JArr items) →
  run w
  = (f <- for_in items body ;;
     match f with
     | Return result => ret result
     | Next => ret "Exports Done"
     end)
      (World (trace w ++ [checking cubecode; EvRequest GET listing []])
             (files w)).
Proof.
  intros Hreq Hok Hitems. unfold wapor_ingest.download_data.
  erewrite bind_ok; [|reflexivity].
  erewrite bind_ok; [|by apply request_answered].
  erewrite bind_ok; [|by apply status_passes].
  cbv beta iota. rewrite (read_payload _ _ _ _ _ Hitems).
  erewrite bind_ok; [|reflexivity].
  cbn [trace files]. by rewrite <- app_assoc.
Qed.

(** The listing was refused: the catalog is shown and the error handed
    back. *)
Lemma download_data_rejected resp e v w w' :
  http E (World (trace w ++ [checking cubecode]) (files w)) GET listing []
    = Answer resp →
  http_error_msg resp = Some e →
  wapor_ingest.list_cubes E
    (World (trace w ++ [checking cubecode; EvRequest GET listing []]) (files w))
    = (Ok v, w') →
  run w = (Ok ("Error: " +:+ e), w').
Proof.
  intros Hreq He Hcubes. unfold wapor_ingest.download_data.
  erewrite bind_ok; [|reflexivity].
  erewrite bind_ok; [|by apply request_answered].
  erewrite bind_ok; [|by apply status_caught].
  cbv beta iota. cbn [trace files]. rewrite <- app_assoc. cbn [app].
  by erewrite bind_ok.
Qed.

(** A stretch of rasters that all resolve and that GDAL all delivers. *)
Lemma for_in_fetched loc items ids w :
  Forall2 (λ x id, py_getitem x "rasterId" = inr (JStr id)) items ids →
  (∀ id, id ∈ ids →
     ∃ r, answers E GET (download_url cubecode id) h r
          ∧ http_error_msg r = None
          ∧ payload r "downloadUrl" = Some (loc id)) →
  (∀ w' dest src reg, gdal E w' dest src reg = GdalDataset) →
  for_in items body w
  = (Ok Next,
     World (trace w ++ concat (fetched_events E h cubecode out coverage
                                 bounding_box loc <$> ids))
           (fetched_files E out coverage bounding_box loc (files w) ids)).
Proof.
  intros Hitems Hres Hgdal. revert w.
  induction Hitems as [|x id items ids Hx _ IH]; intros w.
  - cbn. by rewrite app_nil_r, world_eta.
  - destruct (Hres id) as (r & Hr & Hok & Hloc); [by left|].
    cbn [for_in].
    erewrite bind_ok;
      [|erewrite export_raster_resolved by eauto; by rewrite Hgdal].
    rewrite IH by (intros; apply Hres; by right).
    cbn. unfold fetched_events. by rewrite <- !app_assoc.
Qed.
(** The same stretch when GDAL may also return [None]: what the loop prints,
    requests and sleeps does not depend on which of the two it was. *)
Lemma for_in_fetched_trace loc items ids w :
  Forall2 (λ x id, py_getitem x "rasterId" = inr (JStr id)) items ids →
  (∀ id, id ∈ ids →
     ∃ r, answers E GET (download_url cubecode id) h r
          ∧ http_error_msg r = None
          ∧ payload r "downloadUrl" = Some (loc id)) →
  (∀ w' dest src reg msg d, gdal E w' dest src reg ≠ GdalRaise msg d) →
  ∃ w',
    for_in items body w = (Ok Next, w')
    ∧ trace w'
      = trace w ++ concat (fetched_events E h cubecode out coverage
                             bounding_box loc <$> ids).
Proof.
  intros Hitems Hres Hgdal. revert w.
  induction Hitems as [|x id items ids Hx _ IH]; intros w.
  - exists w. cbn. by rewrite app_nil_r.
  - destruct (Hres id) as (r & Hr & Hok & Hloc); [by left|].
    pose proof (export_raster_resolved E h cubecode out coverage bounding_box
                  x id r (loc id) w Hx (Hr _) Hok Hloc) as Hbody.
    cbv zeta in Hbody.
    destruct (gdal E _ _ _ _) as [|d|msg d] eqn:Hg in Hbody;
      [| |by apply Hgdal in Hg];
      (match type of Hbody with
       | _ = (_, ?w1) =>
           destruct (IH (λ id' Hin, Hres id' (proj2 (elem_of_cons _ _ _) (or_intror Hin))) w1)
             as (w' & Hrun & Ht)
       end;
       exists w'; split;
       [cbn [for_in]; erewrite bind_ok by exact Hbody; exact Hrun
       |rewrite Ht; cbn; unfold fetched_events; by rewrite <- !app_assoc]).
Qed.

End DownloadData.

(** ** Sign-in *)

(** The notebook checks the status before it reads the token. *)
Lemma wapor_python_access_token_iff E key w t :
  fst (wapor_python.access_token E key w) = Ok t
  ↔ ∃ r, http E w POST wapor_python.authorization_request_url
               [("X-GISMGR-API-KEY", key)] = Answer r
         ∧ http_error_msg r = None
         ∧ payload r "accessToken" = Some t.
Proof.
  unfold wapor_python.access_token, wapor_python.authorization_headers,
    requests_post, requests_send, raise_for_status, response_json, getitem,
    payload, bind, lift, ret, raise.
  destruct (http E w POST _ _) as [r|msg] eqn:Hreq; cbn;
    [|split; [done | by intros (r' & ? & _)]].
  destruct (http_error_msg r) as [e|] eqn:He; cbn;
    [split; [done | intros (r' & [= <-] & ? & _); congruence]|].
  destruct (body r) as [j|] eqn:Hb; cbn;
    [|split; [done | intros (r' & [= <-] & _ & Hp); by rewrite Hb in Hp]].
  destruct (py_getitem j "response") as [|rr] eqn:Hr; cbn;
    [split; [done | intros (r' & [= <-] & _ & Hp); by rewrite Hb, Hr in Hp]|].
  destruct (py_getitem rr "accessToken") as [|v] eqn:Hv; cbn;
    [split; [done | intros (r' & [= <-] & _ & Hp); by rewrite Hb, Hr, Hv in Hp]|].
  split.
  - intros [= <-]. exists r. by rewrite Hb, Hr, Hv.
  - intros (r' & [= <-] & _ & Hp). rewrite Hb, Hr, Hv in Hp. congruence.
Qed.

(** The batch script reads the token whatever the status. *)
Lemma wapor_ingest_access_token_iff E key w t :
  fst (wapor_ingest.access_token E key w) = Ok t
  ↔ ∃ r, http E w POST wapor_ingest.authorization_request_url
               [("X-GISMGR-API-KEY", key)] = Answer r
         ∧ payload r "accessToken" = Some t.
Proof.
  unfold wapor_ingest.access_token, wapor_ingest.authorization_headers,
    requests_post, requests_send, response_json, getitem,
    payload, bind, lift, ret, raise.
  destruct (http E w POST _ _) as [r|msg] eqn:Hreq; cbn;
    [|split; [done | by intros (r' & ? & _)]].
  destruct (body r) as [j|] eqn:Hb; cbn;
    [|split; [done | intros (r' & [= <-] & Hp); by rewrite Hb in Hp]].
  destruct (py_getitem j "response") as [|rr] eqn:Hr; cbn;
    [split; [done | intros (r' & [= <-] & Hp); by rewrite Hb, Hr in Hp]|].
  destruct (py_getitem rr "accessToken") as [|v] eqn:Hv; cbn;
    [split; [done | intros (r' & [= <-] & Hp); by rewrite Hb, Hr, Hv in Hp]|].
  split.
  - intros [= <-]. exists r. by rewrite Hb, Hr, Hv.
  - intros (r' & [= <-] & Hp). rewrite Hb, Hr, Hv in Hp. congruence.
Qed.

(** ** The claims *)

Lemma translate_dests_cube_lines items :
  translate_dests (omap cube_line items) = [].
Proof.
  induction items as [|x items IH]; [done|]. cbn. unfold cube_line at 1.
  destruct (py_getitem x "caption"); [done|].
  by destruct (py_getitem x "code").
Qed.

(** C1, as stated, fails: with the first of two rasters refused by the
    download resolution (HTTP 500), the run ends there with a single error
    string; the second raster is never requested and nothing is fetched. *)
Lemma C1_counterexample :
  let run := wapor_ingest.download_data fao_first_500 bearer "L1_AETI_A" "out"
               true wapor_ingest.b_box initial_world in
  fst run
  = Ok ("Error: 500 Server Error: Internal Server Error for url: "
          +:+ download_url "L1_AETI_A" "L1_AETI_16")
  ∧ requested (trace (snd run))
    = [wapor_ingest.rasters_url "L1_AETI_A"; download_url "L1_AETI_A" "L1_AETI_16"]
  ∧ translate_dests (trace (snd run)) = [].
Proof. vm_compute. done. Qed.

(** C1, amended: the first raster whose download resolution is refused with
    an HTTP error status ends the run.  [download_data] returns
    "Error: " followed by the message of that HTTP error; the world it leaves
    is the one reached after the rasters before it, plus the refused item's
    announcement and request.  The rasters after it ([post], arbitrary) leave
    no trace. *)
Theorem C1_refused_resolution_ends_the_run
    E h cubecode out coverage bounding_box w resp pre x post rid r e w1 :
  answers E GET (wapor_ingest.rasters_url cubecode) [] resp →
  http_error_msg resp = None →
  payload resp "items" = Some (JArr (pre ++ x :: post)) →
  for_in pre
    (wapor_ingest.export_raster E h cubecode out coverage bounding_box)
    (World (trace w ++ [checking cubecode;
                        EvRequest GET (wapor_ingest.rasters_url cubecode) []])
           (files w))
    = (Ok Next, w1) →
  py_getitem x "rasterId" = inr rid →
  answers E GET (download_url cubecode (fmt E rid)) h r →
  http_error_msg r = Some e →
  wapor_ingest.download_data E h cubecode out coverage bounding_box w
  = (Ok ("Error: " +:+ e),
     World (trace w1 ++ [EvPrint [VStr "Exporting: "; VJson rid];
                         EvRequest GET (download_url cubecode (fmt E rid)) h])
           (files w1)).
Proof.
  intros Hlist Hok Hitems Hpre Hid Hres He.
  erewrite download_data_listed by eauto.
  assert (Hloop :
    for_in (pre ++ x :: post)
      (wapor_ingest.export_raster E h cubecode out coverage bounding_box)
      (World (trace w ++ [checking cubecode;
                          EvRequest GET (wapor_ingest.rasters_url cubecode) []])
             (files w))
    = (Ok (Return ("Error: " +:+ e)),
       World (trace w1 ++ [EvPrint [VStr "Exporting: "; VJson rid];
                           EvRequest GET (download_url cubecode (fmt E rid)) h])
             (files w1))); [|by erewrite bind_ok by exact Hloop].
  rewrite for_in_app. erewrite bind_ok by exact Hpre.
  cbn [for_in]. erewrite bind_ok; [|by eapply export_raster_refused].
  reflexivity.
Qed.

Lemma C1_refused_resolution_ends_the_run_witness :
  ∃ w',
    wapor_ingest.download_data fao_middle_500 bearer "L1_AETI_A" "out" false
      wapor_ingest.b_box initial_world
    = (Ok ("Error: 500 Server Error: Internal Server Error for url: "
             +:+ download_url "L1_AETI_A" "L1_AETI_17"), w')
    ∧ translate_dests (trace w') = ["out/L1_AETI_16.tif"].
Proof.
  eexists. split.
  - apply (C1_refused_resolution_ends_the_run fao_middle_500 bearer "L1_AETI_A"
             "out" false wapor_ingest.b_box initial_world
             (Response 200 "OK" (wapor_ingest.rasters_url "L1_AETI_A")
                (Some (JObj [("response",
                              JObj [("items", JArr (map raster_item three_rasters))])])))
             [raster_item "L1_AETI_16"] (raster_item "L1_AETI_17")
             [raster_item "L1_AETI_18"] (JStr "L1_AETI_17")
             (Response 500 "Internal Server Error"
                (download_url "L1_AETI_A" "L1_AETI_17") None)).
    + intros w. vm_compute. reflexivity.
    + vm_compute. reflexivity.
    + vm_compute. reflexivity.
    + vm_compute. reflexivity.
    + vm_compute. reflexivity.
    + intros w. vm_compute. reflexivity.
    + vm_compute. reflexivity.
  - vm_compute. reflexivity.
Defined.

Lemma keeps_main P `{!TraceInvariant P} E key get_full_coverage :
  good (coverage_region get_full_coverage wapor_ingest.b_box) →
  keeps P (wapor_ingest.main E key get_full_coverage).
Proof.
  intros Hgood. unfold wapor_ingest.main.
  apply (keeps_bind P); [unfold wapor_ingest.access_token; keeps_auto|].
  intros token.
  apply (keeps_bind P); [by apply (keeps_download_data E _ _ _ _ _ P)|].
  intros output. apply (keeps_print P).
Qed.

(** C2, where the code departs from it: the driver run with
    [get_full_coverage = True] (as shipped) never downloads a full scene,
    every raster it fetches is clipped to [b_box]; run with [False] it never
    clips.  The switch reaches [download_data] as [coverage], whose true
    branch is the windowed one.  Both are shown for every service, and
    evaluated on the service with two rasters. *)
Theorem C2_full_coverage_switch_is_inverted :
  (∀ E key w,
     ∃ new, trace (snd (wapor_ingest.main E key true w)) = trace w ++ new
            ∧ Forall (eq (ProjWin wapor_ingest.b_box)) (translate_regions new))
  ∧ (∀ E key w,
       ∃ new, trace (snd (wapor_ingest.main E key false w)) = trace w ++ new
              ∧ Forall (eq FullScene) (translate_regions new))
  ∧ let full := wapor_ingest.main fao "key" true initial_world in
    let windowed := wapor_ingest.main fao "key" false initial_world in
    translate_regions (trace (snd full))
    = [ProjWin wapor_ingest.b_box; ProjWin wapor_ingest.b_box]
    ∧ files (snd full) !! dest_of wapor_ingest.outfolder "L1_AETI_16"
      = Some (Complete ("/vsicurl/" +:+ cdn "L1_AETI_16")
                       (ProjWin wapor_ingest.b_box))
    ∧ translate_regions (trace (snd windowed)) = [FullScene; FullScene]
    ∧ files (snd windowed) !! dest_of wapor_ingest.outfolder "L1_AETI_16"
      = Some (Complete ("/vsicurl/" +:+ cdn "L1_AETI_16") FullScene).
Proof.
  split; [|split].
  - intros E key w.
    by apply (keeps_main (translates_only (ProjWin wapor_ingest.b_box))).
  - intros E key w. by apply (keeps_main (translates_only FullScene)).
  - vm_compute. done.
Qed.

(** Without a token the batch script stops: the exception of the sign-in is
    the outcome of the whole program and nothing is requested after it. *)
Lemma main_stops_without_token E key get_full_coverage w e :
  fst (wapor_ingest.access_token E key w) = Raise e →
  wapor_ingest.main E key get_full_coverage w
  = (Raise e, snd (wapor_ingest.access_token E key w)).
Proof.
  intros Hfail. unfold wapor_ingest.main.
  destruct (wapor_ingest.access_token E key w) as [o w'] eqn:Hrun.
  cbn in Hfail. subst o. by erewrite bind_raise.
Qed.

(** C3, where the code departs from it: the batch script hands out a token
    exactly when the body of the sign-in answer carries
    [response.accessToken], whatever the status of that answer.  On a
    sign-in answered with 401 whose body still carries the field it takes
    the token; the notebook, which calls [raise_for_status] first, raises
    the HTTP error. *)
Theorem C3_ingest_takes_token_from_refused_sign_in :
  (∀ E key w t,
     fst (wapor_ingest.access_token E key w) = Ok t
     ↔ ∃ r, http E w POST wapor_ingest.authorization_request_url
                  [("X-GISMGR-API-KEY", key)] = Answer r
            ∧ payload r "accessToken" = Some t)
  ∧ http_error_msg
      (Response 401 "Unauthorized" wapor_ingest.authorization_request_url
         (Some (JObj [("response", JObj [("accessToken", JStr "stale")])])))
    = Some ("401 Client Error: Unauthorized for url: "
              +:+ wapor_ingest.authorization_request_url)
  ∧ fst (wapor_ingest.access_token fao_stale "expired-key" initial_world)
    = Ok (JStr "stale")
  ∧ fst (wapor_python.access_token fao_stale "expired-key" initial_world)
    = Raise (HTTPError
               ("401 Client Error: Unauthorized for url: "
                  +:+ wapor_python.authorization_request_url)).
Proof.
  split; [|by vm_compute].
  intros E key w t. apply wapor_ingest_access_token_iff.
Qed.

(** C4, as stated, fails: during an outage in which every endpoint answers
    503 with a page that is not JSON, the listing for "NOPE" is rejected and
    [download_data] goes on to [list_cubes], which raises while reading the
    catalog.  The exception leaves [download_data]: no "Error: ..." string
    is returned, and no cube is shown. *)
Lemma C4_counterexample :
  let run := wapor_ingest.download_data fao_outage bearer "NOPE" "out" true
               wapor_ingest.b_box initial_world in
  http fao_outage initial_world GET (wapor_ingest.rasters_url "NOPE") []
  = Answer (Response 503 "Service Unavailable" (wapor_ingest.rasters_url "NOPE")
              None)
  ∧ fst run = Raise JSONDecodeError
  ∧ trace (snd run)
    = [checking "NOPE";
       EvRequest GET (wapor_ingest.rasters_url "NOPE") [];
       EvRequest GET cubes_url []].
Proof. vm_compute. done. Qed.

(** C4, amended: when the rasters-listing request for a cube code is
    answered with a 4xx/5xx status and the catalog endpoint delivers its
    list (a body with [response.items] whose entries have a caption and a
    code), [download_data] returns (it does not raise) "Error: " followed by
    the message of the HTTP error, which opens with the status code; in
    between it requests the catalog and prints one line per cube; no
    [gdal.Translate] call is made and the files are untouched. *)
Theorem C4_rejected_cube_returns_error_and_shows_catalog
    E h cubecode out coverage bounding_box w resp e cat items :
  answers E GET (wapor_ingest.rasters_url cubecode) [] resp →
  http_error_msg resp = Some e →
  answers E GET cubes_url [] cat →
  payload cat "items" = Some (JArr items) →
  Forall (λ x, is_Some (cube_line x)) items →
  ∃ new w',
    wapor_ingest.download_data E h cubecode out coverage bounding_box w
    = (Ok ("Error: " +:+ e), w')
    ∧ (∃ detail, e = str_int (status_code resp) +:+ detail)
    ∧ trace w' = trace w ++ new
    ∧ new = checking cubecode
              :: EvRequest GET (wapor_ingest.rasters_url cubecode) []
              :: EvRequest GET cubes_url []
              :: EvPrint [VStr "Please select appropriate code from list:"]
              :: omap cube_line items
    ∧ translate_dests new = []
    ∧ files w' = files w.
Proof.
  intros Hlist He Hcat Hitems Hall.
  eexists _, _. split; [|split; [|split; [|split; [reflexivity|split]]]].
  - eapply download_data_rejected; [apply Hlist | exact He |].
    eapply list_cubes_run; [apply Hcat | exact Hitems | exact Hall].
  - by apply http_error_msg_status in He as [_ ?].
  - cbn [trace files]. by rewrite <- app_assoc.
  - cbn. apply translate_dests_cube_lines.
  - done.
Qed.

Lemma C4_rejected_cube_returns_error_and_shows_catalog_witness :
  ∃ new w',
    wapor_ingest.download_data fao bearer "NOPE" "out" true wapor_ingest.b_box
      initial_world
    = (Ok ("Error: 404 Client Error: Not Found for url: "
             +:+ wapor_ingest.rasters_url "NOPE"), w')
    ∧ (∃ detail, "404 Client Error: Not Found for url: "
                   +:+ wapor_ingest.rasters_url "NOPE"
                 = "404" +:+ detail)
    ∧ trace w' = trace initial_world ++ new
    ∧ new = checking "NOPE"
              :: EvRequest GET (wapor_ingest.rasters_url "NOPE") []
              :: EvRequest GET cubes_url []
              :: EvPrint [VStr "Please select appropriate code from list:"]
              :: [EvPrint [VJson (JStr "Actual EvapoTranspiration and Interception (Annual)");
                           VStr " : "; VJson (JStr "L1_AETI_A")];
                  EvPrint [VJson (JStr "Net Primary Production (Dekadal)");
                           VStr " : "; VJson (JStr "L1_NPP_D")]]
    ∧ translate_dests new = []
    ∧ files w' = files initial_world.
Proof.
  apply (C4_rejected_cube_returns_error_and_shows_catalog fao bearer "NOPE" "out"
           true wapor_ingest.b_box initial_world
           (Response 404 "Not Found" (wapor_ingest.rasters_url "NOPE") None)
           ("404 Client Error: Not Found for url: "
              +:+ wapor_ingest.rasters_url "NOPE")
           (Response 200 "OK" cubes_url
              (Some (JObj [("response", JObj [("items", catalog_items)])])))
           [JObj [("code", JStr "L1_AETI_A");
                  ("caption", JStr "Actual EvapoTranspiration and Interception (Annual)")];
            JObj [("code", JStr "L1_NPP_D");
                  ("caption", JStr "Net Primary Production (Dekadal)")]]).
  - intros w. vm_compute. reflexivity.
  - vm_compute. reflexivity.
  - intros w. vm_compute. reflexivity.
  - vm_compute. reflexivity.
  - repeat constructor; vm_compute; eauto.
Defined.

(** C5: when the rasters listing of a cube is granted and empty,
    [download_data] makes no further request and no [gdal.Translate] call,
    leaves the files as they were, and returns "Exports Done"; that value is
    never one of the "Error: ..." strings. *)
Theorem C5_empty_listing_is_success
    E h cubecode out coverage bounding_box w resp :
  answers E GET (wapor_ingest.rasters_url cubecode) [] resp →
  http_error_msg resp = None →
  payload resp "items" = Some (JArr []) →
  wapor_ingest.download_data E h cubecode out coverage bounding_box w
  = (Ok "Exports Done",
     World (trace w ++ [checking cubecode;
                        EvRequest GET (wapor_ingest.rasters_url cubecode) []])
           (files w))
  ∧ ∀ e, "Exports Done" ≠ "Error: " +:+ e.
Proof.
  intros Hlist Hok Hitems. split; [|done].
  by erewrite download_data_listed by eauto.
Qed.

Lemma C5_empty_listing_is_success_witness :
  wapor_ingest.download_data fao_no_rasters bearer "L1_AETI_A" "out" true
    wapor_ingest.b_box initial_world
  = (Ok "Exports Done",
     World (trace initial_world
              ++ [checking "L1_AETI_A";
                  EvRequest GET (wapor_ingest.rasters_url "L1_AETI_A") []])
           (files initial_world))
  ∧ ∀ e, "Exports Done" ≠ "Error: " +:+ e.
Proof.
  apply (C5_empty_listing_is_success fao_no_rasters bearer "L1_AETI_A" "out" true
           wapor_ingest.b_box initial_world
           (Response 200 "OK" (wapor_ingest.rasters_url "L1_AETI_A")
              (Some (JObj [("response", JObj [("items", JArr [])])])))).
  - intros w. vm_compute. reflexivity.
  - vm_compute. reflexivity.
  - vm_compute. reflexivity.
Defined.

(** C7, as stated, fails: called with a box whose west exceeds its east and
    whose north lies below its south, [download_data] raises nothing; it
    issues the listing request and both resolution requests, hands the box
    to GDAL as it is and returns "Exports Done". *)
Lemma C7_counterexample :
  let run := wapor_ingest.download_data fao bearer "L1_AETI_A" "out" true
               inverted_box initial_world in
  Qle_bool (right inverted_box) (left inverted_box) = true
  ∧ Qle_bool (top inverted_box) (bottom inverted_box) = true
  ∧ fst run = Ok "Exports Done"
  ∧ requested (trace (snd run))
    = [wapor_ingest.rasters_url "L1_AETI_A";
       download_url "L1_AETI_A" "L1_AETI_16";
       download_url "L1_AETI_A" "L1_AETI_17"]
  ∧ translate_regions (trace (snd run))
    = [ProjWin inverted_box; ProjWin inverted_box].
Proof. vm_compute. done. Qed.

(** C7, amended: [download_data] validates nothing.  For every bounding box
    its first two actions are the announcement and the rasters-listing
    request; with [coverage] on, every [gdal.Translate] call of the run gets
    the box as it was passed, as [projWin]; with [coverage] off the box plays
    no part in the run at all. *)
Theorem C7_bounding_box_is_never_checked
    E h cubecode out coverage bounding_box w :
  (∃ rest,
     trace (snd (wapor_ingest.download_data E h cubecode out coverage
                   bounding_box w))
     = trace w ++ checking cubecode
         :: EvRequest GET (wapor_ingest.rasters_url cubecode) [] :: rest
     ∧ Forall (eq (coverage_region coverage bounding_box))
              (translate_regions rest))
  ∧ ∀ other,
      wapor_ingest.download_data E h cubecode out false bounding_box w
      = wapor_ingest.download_data E h cubecode out false other w.
Proof.
  split; [|done].
  by apply (download_data_opening E h cubecode out coverage bounding_box
              (translates_only (coverage_region coverage bounding_box))).
Qed.

(** C8, as stated, fails: [list_cubes] does not return the cubes, it returns
    [None]. *)
Lemma C8_counterexample :
  fst (wapor_ingest.list_cubes fao initial_world) = Ok VNone
  ∧ ¬ ∃ descriptors,
        fst (wapor_ingest.list_cubes fao initial_world)
        = Ok (VJson (JArr descriptors)).
Proof. split; [by vm_compute|]. intros [descriptors H]. vm_compute in H. done. Qed.

(** C8, amended: [list_cubes] sends one GET without any header (no token) to
    the catalog endpoint and, when the body carries the list of cubes, prints
    a heading and then one "caption : code" line per cube, in catalog order;
    it changes no file and returns [None]. *)
Theorem C8_list_cubes_prints_the_catalog E w r items :
  answers E GET cubes_url [] r →
  payload r "items" = Some (JArr items) →
  Forall (λ x, is_Some (cube_line x)) items →
  wapor_ingest.list_cubes E w
  = (Ok VNone,
     World (trace w ++ EvRequest GET cubes_url []
              :: EvPrint [VStr "Please select appropriate code from list:"]
              :: omap cube_line items)
           (files w))
  ∧ length (omap cube_line items) = length items.
Proof.
  intros Hcat Hitems Hall. split.
  - by eapply list_cubes_run.
  - clear Hitems. induction Hall as [|x items [ev Hx] _ IH]; [done|].
    cbn. rewrite Hx. cbn. by rewrite IH.
Qed.

Lemma C8_list_cubes_prints_the_catalog_witness :
  wapor_ingest.list_cubes fao initial_world
  = (Ok VNone,
     World (trace initial_world ++ EvRequest GET cubes_url []
              :: EvPrint [VStr "Please select appropriate code from list:"]
              :: [EvPrint [VJson (JStr "Actual EvapoTranspiration and Interception (Annual)");
                           VStr " : "; VJson (JStr "L1_AETI_A")];
                  EvPrint [VJson (JStr "Net Primary Production (Dekadal)");
                           VStr " : "; VJson (JStr "L1_NPP_D")]])
           (files initial_world))
  ∧ length [EvPrint [VJson (JStr "Actual EvapoTranspiration and Interception (Annual)");
                     VStr " : "; VJson (JStr "L1_AETI_A")];
            EvPrint [VJson (JStr "Net Primary Production (Dekadal)");
                     VStr " : "; VJson (JStr "L1_NPP_D")]]
    = 2%nat.
Proof.
  apply (C8_list_cubes_prints_the_catalog fao initial_world
           (Response 200 "OK" cubes_url
              (Some (JObj [("response", JObj [("items", catalog_items)])])))
           [JObj [("code", JStr "L1_AETI_A");
                  ("caption", JStr "Actual EvapoTranspiration and Interception (Annual)")];
            JObj [("code", JStr "L1_NPP_D");
                  ("caption", JStr "Net Primary Production (Dekadal)")]]).
  - intros w. vm_compute. reflexivity.
  - vm_compute. reflexivity.
  - repeat constructor; vm_compute; eauto.
Defined.

Lemma translate_dests_app l1 l2 :
  translate_dests (l1 ++ l2) = translate_dests l1 ++ translate_dests l2.
Proof.
  induction l1 as [|e l1 IH]; [done|]. destruct e; cbn; by rewrite ?IH.
Qed.





(** The two files of that run, by name. *)
Example two_rasters_two_files :
  dest_of "out" <$> two_rasters = ["out/L1_AETI_16.tif"; "out/L1_AETI_17.tif"].
Proof. reflexivity. Qed.

(** C10: the pacing of [download_data].
    - For a listed raster whose download location is resolved, the loop body
      calls [gdal.Translate] and, when that call returns (with a dataset or
      with [None], windowed or not), takes [time.sleep(10)] right after it
      and only then moves on to the next raster.
    - A batch whose listing is granted and whose rasters all resolve, with a
      GDAL that does not raise, therefore runs to "Exports Done" with, per
      raster in listing order, the announcement, the resolution request, the
      coverage line, the [gdal.Translate] call and the sleep of 10.
    - In every run, whatever the service and GDAL do, each [gdal.Translate]
      call is followed at once by [time.sleep(10)], before anything is done
      for the next raster.  Only a call that raises has nothing after it,
      and then the run has ended with that exception. *)
Theorem C10_sleep_of_ten_after_every_fetch
    E h cubecode out coverage bounding_box w :
  (∀ x id r tif_url w0,
     py_getitem x "rasterId" = inr (JStr id) →
     answers E GET (download_url cubecode id) h r →
     http_error_msg r = None →
     payload r "downloadUrl" = Some tif_url →
     (∀ msg d,
        gdal E (World (trace w0
                         ++ fetch_prelude h cubecode coverage bounding_box id)
                      (files w0))
          (dest_of out id) (source_of E tif_url)
          (coverage_region coverage bounding_box)
        ≠ GdalRaise msg d) →
     ∃ w1,
       wapor_ingest.export_raster E h cubecode out coverage bounding_box x w0
       = (Ok Next, w1)
       ∧ trace w1
         = trace w0 ++ fetch_prelude h cubecode coverage bounding_box id
             ++ [EvTranslate (dest_of out id) (source_of E tif_url)
                   (coverage_region coverage bounding_box);
                 EvSleep 10])
  ∧ (∀ resp items ids loc,
       answers E GET (wapor_ingest.rasters_url cubecode) [] resp →
       http_error_msg resp = None →
       payload resp "items" = Some (JArr items) →
       Forall2 (λ x id, py_getitem x "rasterId" = inr (JStr id)) items ids →
       (∀ id, id ∈ ids →
          ∃ r, answers E GET (download_url cubecode id) h r
               ∧ http_error_msg r = None
               ∧ payload r "downloadUrl" = Some (loc id)) →
       (∀ w' dest src reg msg d, gdal E w' dest src reg ≠ GdalRaise msg d) →
       fst (wapor_ingest.download_data E h cubecode out coverage bounding_box w)
       = Ok "Exports Done"
       ∧ trace (snd (wapor_ingest.download_data E h cubecode out coverage
                       bounding_box w))
         = trace w
             ++ checking cubecode
             :: EvRequest GET (wapor_ingest.rasters_url cubecode) []
             :: concat (fetched_events E h cubecode out coverage bounding_box
                          loc <$> ids))
  ∧ ∃ new,
      trace (snd (wapor_ingest.download_data E h cubecode out coverage
                    bounding_box w))
      = trace w ++ new
      ∧ ∀ before dest src reg after,
          new = before ++ EvTranslate dest src reg :: after →
          match after with
          | [] => ∃ msg,
              fst (wapor_ingest.download_data E h cubecode out coverage
                     bounding_box w)
              = Raise (GdalError msg)
          | e :: _ => e = EvSleep 10
          end.
Proof.
  split; [|split].
  - intros x id r tif_url w0 Hid Hres Hok Hurl Hgdal.
    pose proof (export_raster_resolved E h cubecode out coverage bounding_box
                  x id r tif_url w0 Hid (Hres _) Hok Hurl) as Hbody.
    cbv zeta in Hbody.
    destruct (gdal E _ _ _ _) as [|d|msg d] eqn:Hg in Hbody;
      [| |by apply Hgdal in Hg];
      (eexists; split; [exact Hbody|]; cbn [trace]; by rewrite <- app_assoc).
  - intros resp items ids loc Hlist Hok Hitems Hids Hres Hgdal.
    erewrite download_data_listed by eauto.
    destruct (for_in_fetched_trace E h cubecode out coverage bounding_box
                loc items ids
                (World (trace w
                          ++ [checking cubecode;
                              EvRequest GET (wapor_ingest.rasters_url cubecode) []])
                       (files w))
                Hids Hres Hgdal) as (w' & Hrun & Ht).
    erewrite bind_ok by exact Hrun. cbn [fst snd ret]. split; [done|].
    rewrite Ht. cbn [trace]. by rewrite <- app_assoc.
  - destruct (download_data_opening E h cubecode out coverage bounding_box
                is_paced w) as (rest & Ht & Hpaced); [exact I|].
    eexists. split; [exact Ht|].
    intros before dest src reg after Hsplit.
    assert (Hall : paced
                     (gdal_raised
                        (fst (wapor_ingest.download_data E h cubecode out
                                coverage bounding_box w)))
                     (before ++ EvTranslate dest src reg :: after) = true)
      by (by rewrite <- Hsplit).
    apply paced_split in Hall. destruct after as [|e after]; [|done].
    destruct (fst _) as [s|[]]; try done. eauto.
Qed.

Lemma C10_sleep_of_ten_after_every_fetch_witness :
  fst (wapor_ingest.download_data fao bearer "L1_AETI_A" "out" false
         wapor_ingest.b_box initial_world)
  = Ok "Exports Done"
  ∧ trace (snd (wapor_ingest.download_data fao bearer "L1_AETI_A" "out" false
                  wapor_ingest.b_box initial_world))
    = trace initial_world
        ++ checking "L1_AETI_A"
        :: EvRequest GET (wapor_ingest.rasters_url "L1_AETI_A") []
        :: concat
             [[EvPrint [VStr "Exporting: "; VJson (JStr "L1_AETI_16")];
               EvRequest GET (download_url "L1_AETI_A" "L1_AETI_16") bearer;
               EvPrint [VStr "Exporting total data coverage"];
               EvTranslate "out/L1_AETI_16.tif"
                 ("/vsicurl/" +:+ cdn "L1_AETI_16") FullScene;
               EvSleep 10];
              [EvPrint [VStr "Exporting: "; VJson (JStr "L1_AETI_17")];
               EvRequest GET (download_url "L1_AETI_A" "L1_AETI_17") bearer;
               EvPrint [VStr "Exporting total data coverage"];
               EvTranslate "out/L1_AETI_17.tif"
                 ("/vsicurl/" +:+ cdn "L1_AETI_17") FullScene;
               EvSleep 10]].
Proof.
  apply (proj1 (proj2 (C10_sleep_of_ten_after_every_fetch fao bearer
                         "L1_AETI_A" "out" false wapor_ingest.b_box
                         initial_world))
           (Response 200 "OK" (wapor_ingest.rasters_url "L1_AETI_A")
              (Some (JObj [("response",
                            JObj [("items", JArr (map raster_item two_rasters))])])))
           (map raster_item two_rasters) two_rasters (λ id, JStr (cdn id))).
  - intros w. vm_compute. reflexivity.
  - vm_compute. reflexivity.
  - vm_compute. reflexivity.
  - repeat constructor.
  - intros id Hid.
    exists (Response 200 "OK" (download_url "L1_AETI_A" id)
              (Some (JObj [("response", JObj [("downloadUrl", JStr (cdn id))])]))).
    apply elem_of_cons in Hid as [->|Hid];
      [|apply elem_of_cons in Hid as [->|Hid]; [|by apply elem_of_nil in Hid]];
      (split; [intros w; vm_compute; reflexivity | split; reflexivity]).
  - intros w dest src reg msg d. discriminate.
Defined.

(** * More of what the scripts do *)

(** ** Events, files and outcomes of a computation *)

Section Behaving.
Context (Q : event → Prop).

Lemma behaves_ret {A} (R : A → Prop) a : R a → behaves Q R (ret a).
Proof. intros Ha w. exists []. cbn. by rewrite app_nil_r. Qed.

Lemma behaves_lift {A} (R : A → Prop) (r : exn + A) :
  match r with
  | inl (HTTPError _) => False
  | inl _ => True
  | inr a => R a
  end →
  behaves Q R (lift r).
Proof.
  intros Hr w. exists []. destruct r as [e|a]; cbn; by rewrite app_nil_r.
Qed.

Lemma behaves_getitem v k : behaves Q (λ x, py_getitem v k = inr x) (getitem v k).
Proof.
  apply behaves_lift. unfold py_getitem.
  destruct v; try done. by destruct (assoc k members).
Qed.

Lemma behaves_response_json r :
  behaves Q (λ j, body r = Some j) (response_json r).
Proof.
  intros w. exists []. unfold response_json.
  destruct (body r); cbn; by rewrite app_nil_r.
Qed.

Lemma behaves_iter v : behaves Q (λ xs, py_iter v = inr xs) (lift (py_iter v)).
Proof. apply behaves_lift. by destruct v. Qed.

Lemma behaves_add_str v suffix :
  behaves Q (λ a, ∃ s, v = JStr s ∧ a = s +:+ suffix) (lift (py_add_str v suffix)).
Proof. apply behaves_lift. destruct v; cbn; eauto. Qed.

Lemma behaves_emit e : Q e → behaves Q (λ _, True) (emit e).
Proof.
  intros He w. exists [e]. cbn. split; [done|]. split; [by constructor|].
  split; [done|done].
Qed.

Lemma behaves_print args : Q (EvPrint args) → behaves Q (λ _, True) (print args).
Proof. apply behaves_emit. Qed.

Lemma behaves_sleep s : Q (EvSleep s) → behaves Q (λ _, True) (time_sleep s).
Proof. apply behaves_emit. Qed.

Lemma behaves_request E m u h :
  Q (EvRequest m u h) → behaves Q (λ _, True) (requests_send E m u h).
Proof.
  intros He w. exists [EvRequest m u h]. unfold requests_send.
  destruct (http E w m u h); cbn; (split; [done|]); (split; [by constructor|]);
    done.
Qed.

Lemma behaves_translate E dest src r :
  Q (EvTranslate dest src r) → behaves Q (λ _, True) (gdal_Translate E dest src r).
Proof.
  intros He w. exists [EvTranslate dest src r]. unfold gdal_Translate.
  assert (Hframe : ∀ d p, p ∉ translate_dests [EvTranslate dest src r] →
            after_translate d dest src r (files w) !! p = files w !! p).
  { intros d p Hp. cbn in Hp. apply not_elem_of_cons in Hp as [Hp _].
    destruct d; cbn; [done | by apply lookup_delete_ne | by apply lookup_insert_ne]. }
  destruct (gdal E w dest src r); cbn [fst snd trace files];
    (split; [done|]); (split; [by constructor|]); (split; [|done]);
    try apply Hframe.
  intros p Hp. cbn in Hp. apply not_elem_of_cons in Hp as [Hp _].
  by apply lookup_insert_ne.
Qed.

Lemma behaves_status r :
  behaves Q (λ o, o = http_error_msg r) (except_HTTPError (raise_for_status r)).
Proof.
  intros w. exists []. unfold except_HTTPError, raise_for_status.
  destruct (http_error_msg r); cbn; by rewrite app_nil_r.
Qed.

Lemma behaves_bind {A B} (R : A → Prop) (S : B → Prop) (m : M A) (k : A → M B) :
  behaves Q R m → (∀ a, R a → behaves Q S (k a)) → behaves Q S (bind m k).
Proof.
  intros Hm Hk w. destruct (Hm w) as (n1 & Ht1 & HQ1 & Hf1 & Ho1). unfold bind.
  destruct (m w) as [[a|e] w1]; cbn in *.
  - destruct (Hk a Ho1 w1) as (n2 & Ht2 & HQ2 & Hf2 & Ho2). exists (n1 ++ n2).
    rewrite Ht2, Ht1, app_assoc. split; [done|]. split; [by apply Forall_app|].
    split; [|done]. intros p Hp. rewrite translate_dests_app in Hp.
    apply not_elem_of_app in Hp as [Hp1 Hp2]. by rewrite Hf2, Hf1.
  - by exists n1.
Qed.

Lemma behaves_for_in {A B} (R : flow B → Prop) (body : A → M (flow B)) xs :
  R Next → (∀ x, behaves Q R (body x)) → behaves Q R (for_in xs body).
Proof.
  intros Hnext Hbody. induction xs as [|x xs IH]; cbn [for_in].
  - by apply behaves_ret.
  - eapply behaves_bind; [apply Hbody|]. intros [|r] Hr; [done|].
    by apply behaves_ret.
Qed.

End Behaving.


Ltac open_hyps :=
  repeat match goal with
         | H : ∃ _, _ |- _ => destruct H as [? H]
         | H : _ ∧ _ |- _ => destruct H
         end;
  subst.

(** Side conditions of the shape [download_event ... e]. *)
Ltac event_ok :=
  open_hyps; cbn;
  first
    [ exact I
    | reflexivity
    | split; [reflexivity|];
      first
        [ left; split; [reflexivity|]; first [left; reflexivity | right; reflexivity]
        | right; split; [reflexivity|]; eexists; reflexivity ]
    | split; [eexists; reflexivity|]; split; [eexists; reflexivity | reflexivity] ].

Ltac behaves_leaf :=
  first
    [ apply behaves_getitem
    | apply behaves_response_json
    | apply behaves_iter
    | apply behaves_add_str
    | apply behaves_status
    | apply behaves_print; event_ok
    | apply behaves_sleep; event_ok
    | unfold requests_get, requests_post; apply behaves_request; event_ok
    | apply behaves_translate; event_ok ].

Ltac behaves_step :=
  lazymatch goal with
  | |- behaves _ _ (bind _ _) =>
      eapply behaves_bind; [behaves_leaf | intros ? ?; cbv beta in *]
  end.

(** Case on the outcome of [try: raise_for_status() except HTTPError]. *)
Ltac status_cases e H :=
  match goal with
  | H' : ?o = http_error_msg _ |- _ =>
      destruct o as [e|]; symmetry in H'; rename H' into H
  end.

Section WhatDownloadDataDoes.
Context (E : env) (h : headers) (cubecode out : string).
Context (coverage : bool) (bounding_box : bbox).

Local Abbreviation Q := (download_event h cubecode out coverage bounding_box).

Lemma behaves_list_cubes : behaves Q (eq VNone) (wapor_ingest.list_cubes E).
Proof.
  unfold wapor_ingest.list_cubes. do 6 behaves_step.
  eapply behaves_bind; [|intros ? ?; by apply behaves_ret].
  apply (behaves_for_in Q (λ _, True)); [done|]. intros x.
  do 3 behaves_step. by apply behaves_ret.
Qed.

Lemma behaves_export_raster x :
  behaves Q
    (λ f, match f with
          | Next => True
          | Return s => download_result s ∧ s ≠ "Exports Done"
          end)
    (wapor_ingest.export_raster E h cubecode out coverage bounding_box x).
Proof.
  unfold wapor_ingest.export_raster. do 5 behaves_step.
  status_cases e Hstatus.
  - apply behaves_ret. split; [|done].
    right. eexists _, e. split; [|done].
    by apply http_error_msg_status in Hstatus as [? _].
  - do 4 behaves_step.
    eapply behaves_bind;
      [destruct coverage; (eapply behaves_bind; [behaves_leaf|]);
       intros ? ?; cbv beta in *; behaves_leaf|].
    intros ? ?. behaves_step. by apply behaves_ret.
Qed.

Lemma behaves_download_data :
  behaves Q download_result
    (wapor_ingest.download_data E h cubecode out coverage bounding_box).
Proof.
  unfold wapor_ingest.download_data. do 3 behaves_step.
  status_cases e Hstatus.
  - eapply behaves_bind; [apply behaves_list_cubes|]. intros ? _.
    apply behaves_ret. right. eexists _, e.
    split; [|done]. by apply http_error_msg_status in Hstatus as [? _].
  - do 4 behaves_step.
    eapply behaves_bind; [apply behaves_for_in; [|apply behaves_export_raster]|].
    + done.
    + intros [|s] Hs; apply behaves_ret; [by left | by destruct Hs].
Qed.
End WhatDownloadDataDoes.


(** ** The batch script as a whole *)

(** X1: [download_data] never lets an [HTTPError] escape, and the only
    strings it returns are "Exports Done" and "Error: " followed by the
    message of a response with a 4xx or 5xx status. *)
Theorem download_data_outcomes E h cubecode out coverage bounding_box w :
  (∀ msg,
     fst (wapor_ingest.download_data E h cubecode out coverage bounding_box w)
     ≠ Raise (HTTPError msg))
  ∧ ∀ s,
      fst (wapor_ingest.download_data E h cubecode out coverage bounding_box w)
      = Ok s →
      s = "Exports Done"
      ∨ ∃ r e, 400 ≤ status_code r < 600 ∧ http_error_msg r = Some e
               ∧ s = "Error: " +:+ e.
Proof.
  destruct (behaves_download_data E h cubecode out coverage bounding_box w)
    as (new & _ & _ & _ & Ho).
  split.
  - intros msg Hmsg. by rewrite Hmsg in Ho.
  - intros s Hs. by rewrite Hs in Ho.
Qed.

(** X2: the only requests [download_data] sends are GETs: without any header
    to the rasters listing of its cube and to the catalog, and with the
    headers it was given to download locations of its cube, nowhere else. *)
Theorem download_data_requests E h cubecode out coverage bounding_box w :
  ∃ new,
    trace (snd (wapor_ingest.download_data E h cubecode out coverage
                  bounding_box w))
    = trace w ++ new
    ∧ ∀ m u hd,
        EvRequest m u hd ∈ new →
        m = GET
        ∧ ((hd = [] ∧ (u = wapor_ingest.rasters_url cubecode ∨ u = cubes_url))
           ∨ (hd = h ∧ ∃ rid, u = download_url cubecode rid)).
Proof.
  destruct (behaves_download_data E h cubecode out coverage bounding_box w)
    as (new & Ht & HQ & _ & _).
  exists new. split; [done|]. intros m u hd Hin.
  rewrite Forall_forall in HQ. exact (HQ _ Hin).
Qed.

(** X3: [download_data] changes no file other than the destinations of its
    [gdal.Translate] calls; each of those calls writes to
    [os.path.join(out, name + ".tif")] for some string [name], reads from a
    [/vsicurl/] source and uses the region chosen by [coverage]. *)
Theorem download_data_files E h cubecode out coverage bounding_box w :
  ∃ new,
    trace (snd (wapor_ingest.download_data E h cubecode out coverage
                  bounding_box w))
    = trace w ++ new
    ∧ (∀ p, p ∉ translate_dests new →
            files (snd (wapor_ingest.download_data E h cubecode out coverage
                          bounding_box w)) !! p
            = files w !! p)
    ∧ ∀ dest src r,
        EvTranslate dest src r ∈ new →
        (∃ name, dest = os_path_join out (name +:+ ".tif"))
        ∧ (∃ location, src = "/vsicurl/" +:+ location)
        ∧ r = coverage_region coverage bounding_box.
Proof.
  destruct (behaves_download_data E h cubecode out coverage bounding_box w)
    as (new & Ht & HQ & Hf & _).
  exists new. split; [done|]. split; [done|]. intros dest src r Hin.
  rewrite Forall_forall in HQ. exact (HQ _ Hin).
Qed.


(** ** Failures other than HTTP errors *)

Lemma py_getitem_error v k e :
  py_getitem v k = inl e → e = KeyError k ∨ e = TypeError.
Proof.
  unfold py_getitem. destruct v; try (intros [= <-]; by right).
  destruct (assoc k members); [done|]. intros [= <-]. by left.
Qed.

Lemma read_payload_none r k :
  payload r k = None →
  ∃ e, read_error k e
       ∧ ∀ B (K : json → M B) w,
           (j <- response_json r ;; rr <- getitem j "response" ;;
            x <- getitem rr k ;; K x) w = (Raise e, w).
Proof.
  unfold payload, bind, response_json, getitem, lift, ret, raise, read_error.
  destruct (body r) as [j|]; [|eauto 6].
  destruct (py_getitem j "response") as [e|rr] eqn:Hr.
  { apply py_getitem_error in Hr as [->| ->]; eauto 6. }
  destruct (py_getitem rr k) as [e|v] eqn:Hk; [|done].
  apply py_getitem_error in Hk as [->| ->]; eauto 6.
Qed.

(** X5: when the rasters-listing request gets no answer, or an answer
    outside 4xx/5xx whose body is not JSON or lacks [response.items],
    [download_data] raises right after that request (the [try] covers
    [raise_for_status] only): the catalog is not requested, nothing is
    fetched and no file changes. *)
Theorem unusable_listing_raises E h cubecode out coverage bounding_box w :
  listing_unusable
    (http E (World (trace w ++ [checking cubecode]) (files w)) GET
       (wapor_ingest.rasters_url cubecode) []) →
  ∃ e,
    wapor_ingest.download_data E h cubecode out coverage bounding_box w
    = (Raise e,
       World (trace w ++ [checking cubecode;
                          EvRequest GET (wapor_ingest.rasters_url cubecode) []])
             (files w))
    ∧ ((∃ msg, e = ConnectionError msg) ∨ read_error "items" e).
Proof.
  unfold listing_unusable. intros Hlist.
  unfold wapor_ingest.download_data.
  erewrite bind_ok; [|reflexivity].
  unfold bind at 1. unfold requests_get, requests_send. cbn [trace files].
  destruct (http E _ GET _ []) as [r|msg].
  - destruct Hlist as [Hok Hitems].
    erewrite bind_ok; [|by apply status_passes]. cbv beta iota.
    destruct (read_payload_none r "items" Hitems) as (e & He & Hrun).
    exists e. split; [|by right]. rewrite Hrun. by rewrite <- app_assoc.
  - exists (ConnectionError msg). split; [|left; eauto]. by rewrite <- app_assoc.
Qed.

Lemma unusable_listing_raises_witness :
  ∃ e,
    wapor_ingest.download_data fao_html bearer "L1_AETI_A" "out" true
      wapor_ingest.b_box initial_world
    = (Raise e,
       World (trace initial_world
                ++ [checking "L1_AETI_A";
                    EvRequest GET (wapor_ingest.rasters_url "L1_AETI_A") []])
             (files initial_world))
    ∧ ((∃ msg, e = ConnectionError msg) ∨ read_error "items" e).
Proof.
  apply (unusable_listing_raises fao_html bearer "L1_AETI_A" "out" true
           wapor_ingest.b_box initial_world).
  vm_compute. done.
Defined.

(** X6: when [response.items] of a granted listing is not a list, nothing is
    fetched: the empty dict and the empty string make [download_data] return
    "Exports Done", every other value makes it raise [TypeError]; either way
    right after the listing request. *)
Theorem items_that_are_no_list E h cubecode out coverage bounding_box w resp v :
  answers E GET (wapor_ingest.rasters_url cubecode) [] resp →
  http_error_msg resp = None →
  payload resp "items" = Some v →
  is_list v = false →
  wapor_ingest.download_data E h cubecode out coverage bounding_box w
  = (if empty_non_list v then Ok "Exports Done" else Raise TypeError,
     World (trace w ++ [checking cubecode;
                        EvRequest GET (wapor_ingest.rasters_url cubecode) []])
           (files w)).
Proof.
  intros Hlist Hok Hitems Hv. unfold wapor_ingest.download_data.
  erewrite bind_ok; [|reflexivity].
  erewrite bind_ok; [|by apply request_answered].
  erewrite bind_ok; [|by apply status_passes].
  cbv beta iota. rewrite (read_payload _ _ _ _ _ Hitems).
  cbn [trace files]. rewrite <- app_assoc.
  destruct v as [| | |s|l|members]; try done.
  - by destruct s.
  - by destruct members.
Qed.

Lemma items_that_are_no_list_witness :
  wapor_ingest.download_data (fao_fixed 200 (JObj [("items", JObj [("a", JNull)])]))
    bearer "L1_AETI_A" "out" true wapor_ingest.b_box initial_world
  = (if empty_non_list (JObj [("a", JNull)])
     then Ok "Exports Done" else Raise TypeError,
     World (trace initial_world
              ++ [checking "L1_AETI_A";
                  EvRequest GET (wapor_ingest.rasters_url "L1_AETI_A") []])
           (files initial_world)).
Proof.
  apply (items_that_are_no_list _ bearer "L1_AETI_A" "out" true
           wapor_ingest.b_box initial_world
           (Response 200 "-" (wapor_ingest.rasters_url "L1_AETI_A")
              (Some (JObj [("response", JObj [("items", JObj [("a", JNull)])])])))
           (JObj [("a", JNull)])).
  - intros w. reflexivity.
  - reflexivity.
  - reflexivity.
  - reflexivity.
Defined.

(** X7: when the cube is refused and [list_cubes] raises (the catalog does
    not answer, or its body is unusable), [download_data] ends with that
    exception: the "Error: ..." string with the HTTP error of the listing is
    not returned. *)
Theorem failing_catalog_hides_the_http_error
    E h cubecode out coverage bounding_box w resp e0 e :
  answers E GET (wapor_ingest.rasters_url cubecode) [] resp →
  http_error_msg resp = Some e0 →
  fst (wapor_ingest.list_cubes E
         (World (trace w ++ [checking cubecode;
                             EvRequest GET (wapor_ingest.rasters_url cubecode) []])
                (files w)))
  = Raise e →
  wapor_ingest.download_data E h cubecode out coverage bounding_box w
  = (Raise e,
     snd (wapor_ingest.list_cubes E
            (World (trace w ++ [checking cubecode;
                                EvRequest GET (wapor_ingest.rasters_url cubecode) []])
                   (files w)))).
Proof.
  intros Hlist He0 Hcat. unfold wapor_ingest.download_data.
  erewrite bind_ok; [|reflexivity].
  erewrite bind_ok; [|by apply request_answered].
  erewrite bind_ok; [|by apply status_caught].
  cbv beta iota. cbn [trace files]. rewrite <- app_assoc. cbn [app].
  destruct (wapor_ingest.list_cubes E _) as [o w'] eqn:Hrun.
  cbn in Hcat. subst o. by erewrite bind_raise.
Qed.

Lemma failing_catalog_hides_the_http_error_witness :
  wapor_ingest.download_data fao_down bearer "NOPE" "out" true
    wapor_ingest.b_box initial_world
  = (Raise (ConnectionError "connection reset"),
     snd (wapor_ingest.list_cubes fao_down
            (World (trace initial_world
                      ++ [checking "NOPE";
                          EvRequest GET (wapor_ingest.rasters_url "NOPE") []])
                   (files initial_world)))).
Proof.
  apply (failing_catalog_hides_the_http_error fao_down bearer "NOPE" "out" true
           wapor_ingest.b_box initial_world
           (Response 404 "Not Found" (wapor_ingest.rasters_url "NOPE") None)
           ("404 Client Error: Not Found for url: "
              +:+ wapor_ingest.rasters_url "NOPE")).
  - intros w. reflexivity.
  - reflexivity.
  - reflexivity.
Defined.

(** X8: a listed raster without the key [rasterId] ends the run with
    [KeyError] (or [TypeError] when the entry is no dict): the rasters before
    it have been fetched, and for the entry itself nothing is printed,
    requested or written. *)
Theorem raster_without_id_raises
    E h cubecode out coverage bounding_box w resp pre x post e w1 :
  answers E GET (wapor_ingest.rasters_url cubecode) [] resp →
  http_error_msg resp = None →
  payload resp "items" = Some (JArr (pre ++ x :: post)) →
  for_in pre
    (wapor_ingest.export_raster E h cubecode out coverage bounding_box)
    (World (trace w ++ [checking cubecode;
                        EvRequest GET (wapor_ingest.rasters_url cubecode) []])
           (files w))
    = (Ok Next, w1) →
  py_getitem x "rasterId" = inl e →
  wapor_ingest.download_data E h cubecode out coverage bounding_box w
  = (Raise e, w1)
  ∧ (e = KeyError "rasterId" ∨ e = TypeError).
Proof.
  intros Hlist Hok Hitems Hpre Hid. split; [|by eapply py_getitem_error].
  erewrite download_data_listed by eauto.
  erewrite bind_raise; [reflexivity|].
  rewrite for_in_app. erewrite bind_ok by exact Hpre.
  cbn [for_in]. erewrite bind_raise; [reflexivity|].
  unfold wapor_ingest.export_raster, getitem. rewrite Hid. reflexivity.
Qed.

Lemma raster_without_id_raises_witness :
  ∃ w1,
    (wapor_ingest.download_data fao_gap bearer "L1_AETI_A" "out" true
       wapor_ingest.b_box initial_world
     = (Raise (KeyError "rasterId"), w1)
     ∧ (KeyError "rasterId" = KeyError "rasterId"
        ∨ KeyError "rasterId" = TypeError))
    ∧ translate_dests (trace w1) = ["out/L1_AETI_16.tif"].
Proof.
  eexists. split.
  - apply (raster_without_id_raises fao_gap bearer "L1_AETI_A" "out" true
             wapor_ingest.b_box initial_world
             (Response 200 "OK" (wapor_ingest.rasters_url "L1_AETI_A")
                (Some (JObj [("response",
                              JObj [("items",
                                     JArr [raster_item "L1_AETI_16";
                                           JObj [("DEKAD", JNull)]])])])))
             [raster_item "L1_AETI_16"] (JObj [("DEKAD", JNull)]) []).
    + intros w. reflexivity.
    + reflexivity.
    + reflexivity.
    + vm_compute. reflexivity.
    + reflexivity.
  - vm_compute. reflexivity.
Defined.

(** X9: a raster whose download resolution is granted but cannot be used
    (the body is not JSON or lacks [response.downloadUrl], or the raster id is
    not a string) raises after the resolution request and before GDAL is
    called: no file changes and no sleep is taken. *)
Theorem unusable_resolution_raises
    E h cubecode out coverage bounding_box x rid r w :
  py_getitem x "rasterId" = inr rid →
  http E (World (trace w ++ [EvPrint [VStr "Exporting: "; VJson rid]]) (files w))
       GET (download_url cubecode (fmt E rid)) h = Answer r →
  http_error_msg r = None →
  payload r "downloadUrl" = None ∨ is_str rid = false →
  ∃ e,
    wapor_ingest.export_raster E h cubecode out coverage bounding_box x w
    = (Raise e,
       World (trace w ++ [EvPrint [VStr "Exporting: "; VJson rid];
                          EvRequest GET (download_url cubecode (fmt E rid)) h])
             (files w))
    ∧ read_error "downloadUrl" e.
Proof.
  intros Hid Hreq Hok Hbad. unfold wapor_ingest.export_raster.
  unfold getitem at 1 2. rewrite Hid. cbn [lift].
  erewrite bind_ok; [|reflexivity].
  erewrite bind_ok; [|reflexivity].
  erewrite bind_ok; [|reflexivity].
  erewrite bind_ok; [|by apply request_answered].
  erewrite bind_ok; [|by apply status_passes].
  cbv beta iota. cbn [trace files]. rewrite <- app_assoc. cbn [app].
  destruct (payload r "downloadUrl") as [tif_url|] eqn:Hurl.
  - destruct Hbad as [|Hrid]; [done|].
    rewrite (read_payload _ _ _ _ _ Hurl).
    exists TypeError. split; [|unfold read_error; eauto].
    by destruct rid.
  - destruct (read_payload_none r "downloadUrl" Hurl) as (e & He & Hrun).
    exists e. by rewrite Hrun.
Qed.

Lemma unusable_resolution_raises_witness :
  ∃ e,
    wapor_ingest.export_raster (fao_fixed 200 (JObj [("note", JNull)])) bearer
      "L1_AETI_A" "out" true wapor_ingest.b_box (raster_item "L1_AETI_16")
      initial_world
    = (Raise e,
       World (trace initial_world
                ++ [EvPrint [VStr "Exporting: "; VJson (JStr "L1_AETI_16")];
                    EvRequest GET
                      (download_url "L1_AETI_A"
                         (fmt (fao_fixed 200 (JObj [("note", JNull)]))
                            (JStr "L1_AETI_16")))
                      bearer])
             (files initial_world))
    ∧ read_error "downloadUrl" e.
Proof.
  apply (unusable_resolution_raises (fao_fixed 200 (JObj [("note", JNull)]))
           bearer "L1_AETI_A" "out" true wapor_ingest.b_box
           (raster_item "L1_AETI_16") (JStr "L1_AETI_16")
           (Response 200 "-" (download_url "L1_AETI_A" "L1_AETI_16")
              (Some (JObj [("response", JObj [("note", JNull)])])))
           initial_world).
  - reflexivity.
  - reflexivity.
  - reflexivity.
  - left. reflexivity.
Defined.

(** X10: the program ends normally exactly when the sign-in gave a token and
    [download_data] returned, whatever string it returned; the driver never
    shows that string: be it "Exports Done" or an error, the last thing the
    program does is print the word "output". *)
Theorem main_hides_the_outcome E key get_full_coverage w :
  (fst (wapor_ingest.main E key get_full_coverage w) = Ok tt
   ↔ ∃ token w1 s w2,
       wapor_ingest.access_token E key w = (Ok token, w1)
       ∧ wapor_ingest.download_data E (wapor_ingest.tif_headers E token)
           wapor_ingest.ccode wapor_ingest.outfolder get_full_coverage
           wapor_ingest.b_box w1
         = (Ok s, w2))
  ∧ ∀ token w1 s w2,
      wapor_ingest.access_token E key w = (Ok token, w1) →
      wapor_ingest.download_data E (wapor_ingest.tif_headers E token)
        wapor_ingest.ccode wapor_ingest.outfolder get_full_coverage
        wapor_ingest.b_box w1
      = (Ok s, w2) →
      wapor_ingest.main E key get_full_coverage w
      = (Ok tt, World (trace w2 ++ [EvPrint [VStr "output"]]) (files w2)).
Proof.
  assert (Hrun : ∀ token w1 s w2,
    wapor_ingest.access_token E key w = (Ok token, w1) →
    wapor_ingest.download_data E (wapor_ingest.tif_headers E token)
      wapor_ingest.ccode wapor_ingest.outfolder get_full_coverage
      wapor_ingest.b_box w1
    = (Ok s, w2) →
    wapor_ingest.main E key get_full_coverage w
    = (Ok tt, World (trace w2 ++ [EvPrint [VStr "output"]]) (files w2))).
  { intros token w1 s w2 Htoken Hdone. unfold wapor_ingest.main.
    erewrite bind_ok by exact Htoken. by erewrite bind_ok by exact Hdone. }
  split; [|exact Hrun]. split.
  - unfold wapor_ingest.main, bind. intros Hok.
    destruct (wapor_ingest.access_token E key w) as [[token|e] w1] eqn:Htoken;
      [|done].
    destruct (wapor_ingest.download_data E _ _ _ _ _ w1) as [[s|e] w2] eqn:Hdone;
      [|done].
    by exists token, w1, s, w2.
  - intros (token & w1 & s & w2 & Htoken & Hdone).
    by rewrite (Hrun _ _ _ _ Htoken Hdone).
Qed.

Lemma main_hides_the_outcome_witness :
  ∃ w2,
    wapor_ingest.main fao_other "key" true initial_world
    = (Ok tt, World (trace w2 ++ [EvPrint [VStr "output"]]) (files w2))
    ∧ translate_dests (trace w2) = [].
Proof.
  eexists. split.
  - eapply (proj2 (main_hides_the_outcome fao_other "key" true initial_world)
              (JStr issued_token) _
              ("Error: 404 Client Error: Not Found for url: "
                 +:+ wapor_ingest.rasters_url "L1_AETI_A")).
    + vm_compute. reflexivity.
    + vm_compute. reflexivity.
  - vm_compute. reflexivity.
Defined.

(** ** [list_cubes] *)

(** X11: a catalog entry without [caption] or [code] makes [list_cubes] raise
    after the heading and the lines of the entries before it have been
    printed. *)
Theorem list_cubes_stops_at_a_bad_entry E w r pre x post :
  http E w GET cubes_url [] = Answer r →
  payload r "items" = Some (JArr (pre ++ x :: post)) →
  Forall (λ y, is_Some (cube_line y)) pre →
  cube_line x = None →
  ∃ e,
    wapor_ingest.list_cubes E w
    = (Raise e,
       World (trace w ++ EvRequest GET cubes_url []
                :: EvPrint [VStr "Please select appropriate code from list:"]
                :: omap cube_line pre)
             (files w))
    ∧ (e = KeyError "caption" ∨ e = KeyError "code" ∨ e = TypeError).
Proof.
  intros Hreq Hitems Hpre Hx. unfold wapor_ingest.list_cubes.
  erewrite bind_ok; [|by apply request_answered].
  rewrite (read_payload _ _ _ _ _ Hitems).
  erewrite bind_ok; [|reflexivity]. cbn [py_iter lift].
  erewrite bind_ok; [|reflexivity].
  assert (Hbody : ∃ e,
    (e = KeyError "caption" ∨ e = KeyError "code" ∨ e = TypeError)
    ∧ ∀ w0,
        (caption <- getitem x "caption" ;;
         code <- getitem x "code" ;;
         print [VJson caption; VStr " : "; VJson code] ;;;
         ret (Next (R := pyval))) w0
        = (Raise e, w0)).
  { unfold cube_line in Hx. unfold bind, getitem, lift, raise, ret.
    destruct (py_getitem x "caption") as [e|caption] eqn:Hc.
    - exists e. split; [|done].
      apply py_getitem_error in Hc as [->| ->]; eauto.
    - destruct (py_getitem x "code") as [e|code] eqn:Hk; [|done].
      exists e. split; [|done].
      apply py_getitem_error in Hk as [->| ->]; eauto. }
  destruct Hbody as (e & He & Hbody). exists e. split; [|done].
  erewrite bind_raise; [reflexivity|].
  rewrite for_in_app. erewrite bind_ok; [|by apply list_cubes_loop].
  cbn [for_in trace files]. erewrite bind_raise; [|apply Hbody].
  by rewrite <- !app_assoc.
Qed.

Lemma list_cubes_stops_at_a_bad_entry_witness :
  ∃ e,
    wapor_ingest.list_cubes
      (fao_fixed 200
         (JObj [("items", JArr [JObj [("code", JStr "A"); ("caption", JStr "a")];
                                JObj [("code", JStr "B")];
                                JObj [("code", JStr "C"); ("caption", JStr "c")]])]))
      initial_world
    = (Raise e,
       World (trace initial_world ++ EvRequest GET cubes_url []
                :: EvPrint [VStr "Please select appropriate code from list:"]
                :: omap cube_line [JObj [("code", JStr "A"); ("caption", JStr "a")]])
             (files initial_world))
    ∧ (e = KeyError "caption" ∨ e = KeyError "code" ∨ e = TypeError).
Proof.
  apply (list_cubes_stops_at_a_bad_entry _ initial_world
           (Response 200 "-" cubes_url
              (Some (JObj [("response",
                 JObj [("items",
                        JArr [JObj [("code", JStr "A"); ("caption", JStr "a")];
                              JObj [("code", JStr "B")];
                              JObj [("code", JStr "C"); ("caption", JStr "c")]])])])))
           [JObj [("code", JStr "A"); ("caption", JStr "a")]]
           (JObj [("code", JStr "B")])
           [JObj [("code", JStr "C"); ("caption", JStr "c")]]).
  - reflexivity.
  - reflexivity.
  - repeat constructor. vm_compute. eauto.
  - reflexivity.
Defined.

(** X12: [list_cubes] does not look at the status of the answer: two answers
    with the same body, whatever their status codes, make it print, return
    and raise the same. *)
Theorem list_cubes_ignores_the_status E1 E2 w r1 r2 :
  http E1 w GET cubes_url [] = Answer r1 →
  http E2 w GET cubes_url [] = Answer r2 →
  body r1 = body r2 →
  wapor_ingest.list_cubes E1 w = wapor_ingest.list_cubes E2 w.
Proof.
  intros H1 H2 Hbody. unfold wapor_ingest.list_cubes.
  erewrite (bind_ok (requests_get E1 _ _)); [|by apply request_answered].
  erewrite (bind_ok (requests_get E2 _ _)); [|by apply request_answered].
  assert (Hjson : response_json r1 = response_json r2)
    by (unfold response_json; by rewrite Hbody).
  by rewrite Hjson.
Qed.

Lemma list_cubes_ignores_the_status_witness :
  wapor_ingest.list_cubes fao initial_world
  = wapor_ingest.list_cubes fao_unavailable initial_world.
Proof.
  apply (list_cubes_ignores_the_status fao fao_unavailable initial_world
           (Response 200 "OK" cubes_url
              (Some (JObj [("response", JObj [("items", catalog_items)])])))
           (Response 503 "Service Unavailable" cubes_url
              (Some (JObj [("response", JObj [("items", catalog_items)])])))).
  - reflexivity.
  - reflexivity.
  - reflexivity.
Defined.

(** ** A batch that goes through *)

Lemma requested_app l1 l2 : requested (l1 ++ l2) = requested l1 ++ requested l2.
Proof.
  induction l1 as [|e l1 IH]; [done|]. destruct e; cbn; by rewrite ?IH.
Qed.

Lemma total_sleep_app l1 l2 :
  total_sleep (l1 ++ l2) = total_sleep l1 + total_sleep l2.
Proof.
  induction l1 as [|e l1 IH]; [done|]. destruct e; cbn; rewrite ?IH; lia.
Qed.

Lemma fetched_events_cost E h cubecode out coverage bounding_box loc ids :
  requested (concat (fetched_events E h cubecode out coverage bounding_box loc
                       <$> ids))
  = download_url cubecode <$> ids
  ∧ total_sleep (concat (fetched_events E h cubecode out coverage bounding_box
                           loc <$> ids))
    = 10 * Z.of_nat (length ids).
Proof.
  induction ids as [|id ids [IHr IHs]]; [done|].
  cbn [fmap list_fmap concat length].
  rewrite requested_app, total_sleep_app, IHr, IHs.
  unfold fetched_events, fetch_prelude, coverage_print.
  destruct coverage; cbn; (split; [done | lia]).
Qed.

(** X13: a batch of N rasters that all resolve and that GDAL all delivers
    costs N + 1 requests (the listing, then one resolution per raster in
    listing order) and 10 N seconds of sleep. *)
Theorem whole_batch_cost
    E h cubecode out coverage bounding_box w resp items ids loc :
  answers E GET (wapor_ingest.rasters_url cubecode) [] resp →
  http_error_msg resp = None →
  payload resp "items" = Some (JArr items) →
  Forall2 (λ x id, py_getitem x "rasterId" = inr (JStr id)) items ids →
  (∀ id, id ∈ ids →
     ∃ r, answers E GET (download_url cubecode id) h r
          ∧ http_error_msg r = None
          ∧ payload r "downloadUrl" = Some (loc id)) →
  (∀ w' dest src reg, gdal E w' dest src reg = GdalDataset) →
  ∃ new,
    trace (snd (wapor_ingest.download_data E h cubecode out coverage
                  bounding_box w))
    = trace w ++ new
    ∧ requested new
      = wapor_ingest.rasters_url cubecode :: (download_url cubecode <$> ids)
    ∧ total_sleep new = 10 * Z.of_nat (length ids).
Proof.
  intros Hlist Hok Hitems Hids Hres Hgdal.
  erewrite download_data_listed by eauto.
  erewrite bind_ok; [|by eapply for_in_fetched].
  destruct (fetched_events_cost E h cubecode out coverage bounding_box loc ids)
    as [Hr Hs].
  eexists. cbn [snd trace ret]. rewrite <- app_assoc. split; [reflexivity|].
  rewrite requested_app, total_sleep_app, Hr, Hs. done.
Qed.

Lemma whole_batch_cost_witness :
  ∃ new,
    trace (snd (wapor_ingest.download_data fao bearer "L1_AETI_A" "out" true
                  wapor_ingest.b_box initial_world))
    = trace initial_world ++ new
    ∧ requested new
      = wapor_ingest.rasters_url "L1_AETI_A"
          :: (download_url "L1_AETI_A" <$> two_rasters)
    ∧ total_sleep new = 10 * Z.of_nat (length two_rasters).
Proof.
  apply (whole_batch_cost fao bearer "L1_AETI_A" "out" true
           wapor_ingest.b_box initial_world
           (Response 200 "OK" (wapor_ingest.rasters_url "L1_AETI_A")
              (Some (JObj [("response",
                            JObj [("items", JArr (map raster_item two_rasters))])])))
           (map raster_item two_rasters) two_rasters (λ id, JStr (cdn id))).
  - intros w. vm_compute. reflexivity.
  - vm_compute. reflexivity.
  - vm_compute. reflexivity.
  - repeat constructor.
  - intros id Hid.
    exists (Response 200 "OK" (download_url "L1_AETI_A" id)
              (Some (JObj [("response", JObj [("downloadUrl", JStr (cdn id))])]))).
    apply elem_of_cons in Hid as [->|Hid];
      [|apply elem_of_cons in Hid as [->|Hid]; [|by apply elem_of_nil in Hid]];
      (split; [intros w; vm_compute; reflexivity | split; reflexivity]).
  - intros w dest src reg. reflexivity.
Defined.

(** ** The notebook *)

Lemma wapor_python_tif_url_iff E token w u :
  fst (wapor_python.tif_url E token w) = Ok u
  ↔ ∃ r, http E w GET wapor_python.tif_request_url
               [("Authorization", "Bearer " +:+ fmt E token)] = Answer r
         ∧ http_error_msg r = None
         ∧ payload r "downloadUrl" = Some u.
Proof.
  unfold wapor_python.tif_url, requests_get, requests_send, raise_for_status,
    response_json, getitem, payload, bind, lift, ret, raise.
  destruct (http E w GET _ _) as [r|msg] eqn:Hreq; cbn;
    [|split; [done | by intros (r' & ? & _)]].
  destruct (http_error_msg r) as [e|] eqn:He; cbn;
    [split; [done | intros (r' & [= <-] & ? & _); congruence]|].
  destruct (body r) as [j|] eqn:Hb; cbn;
    [|split; [done | intros (r' & [= <-] & _ & Hp); by rewrite Hb in Hp]].
  destruct (py_getitem j "response") as [|rr] eqn:Hr; cbn;
    [split; [done | intros (r' & [= <-] & _ & Hp); by rewrite Hb, Hr in Hp]|].
  destruct (py_getitem rr "downloadUrl") as [|v] eqn:Hv; cbn;
    [split; [done | intros (r' & [= <-] & _ & Hp); by rewrite Hb, Hr, Hv in Hp]|].
  split.
  - intros [= <-]. exists r. by rewrite Hb, Hr, Hv.
  - intros (r' & [= <-] & _ & Hp). rewrite Hb, Hr, Hv in Hp. congruence.
Qed.

(** X15: in the notebook the sign-in yields a token, and the resolution a
    download location, exactly when the answer has no 4xx/5xx status and its
    body carries [response.accessToken], respectively
    [response.downloadUrl]; the resolution is requested for the example
    raster with the header [Authorization: Bearer <token>]. *)
Theorem notebook_token_and_location E key token w :
  (∀ t,
     fst (wapor_python.access_token E key w) = Ok t
     ↔ ∃ r, http E w POST wapor_python.authorization_request_url
                  [("X-GISMGR-API-KEY", key)] = Answer r
            ∧ http_error_msg r = None
            ∧ payload r "accessToken" = Some t)
  ∧ ∀ u,
      fst (wapor_python.tif_url E token w) = Ok u
      ↔ ∃ r, http E w GET (download_url "L1_AETI_A" "L1_AETI_16")
                   [("Authorization", "Bearer " +:+ fmt E token)] = Answer r
             ∧ http_error_msg r = None
             ∧ payload r "downloadUrl" = Some u.
Proof.
  split.
  - intros t. apply wapor_python_access_token_iff.
  - intros u. apply wapor_python_tif_url_iff.
Qed.

(** X16: the notebook checks every answer: a 4xx/5xx status on the sign-in,
    on the download resolution, on the catalog or on the rasters listing
    raises [HTTPError] with the message of that answer, and nothing of the
    body is read. *)
Theorem notebook_checks_every_status E key token w :
  (∀ r e,
     http E w POST wapor_python.authorization_request_url
       [("X-GISMGR-API-KEY", key)] = Answer r →
     http_error_msg r = Some e →
     wapor_python.access_token E key w
     = (Raise (HTTPError e),
        World (trace w ++ [EvRequest POST wapor_python.authorization_request_url
                             [("X-GISMGR-API-KEY", key)]])
              (files w)))
  ∧ (∀ r e,
       http E w GET wapor_python.tif_request_url
         [("Authorization", "Bearer " +:+ fmt E token)] = Answer r →
       http_error_msg r = Some e →
       wapor_python.tif_url E token w
       = (Raise (HTTPError e),
          World (trace w ++ [EvRequest GET wapor_python.tif_request_url
                               [("Authorization", "Bearer " +:+ fmt E token)]])
                (files w)))
  ∧ (∀ r e,
       http E w GET wapor_python.cubes_request_url [] = Answer r →
       http_error_msg r = Some e →
       wapor_python.cubes E w
       = (Raise (HTTPError e),
          World (trace w ++ [EvRequest GET wapor_python.cubes_request_url []])
                (files w)))
  ∧ (∀ r e,
       http E w GET wapor_python.rasterid_request_url [] = Answer r →
       http_error_msg r = Some e →
       wapor_python.rasters E w
       = (Raise (HTTPError e),
          World (trace w ++ [EvRequest GET wapor_python.rasterid_request_url []])
                (files w))).
Proof.
  assert (Hraise : ∀ B r e (k : unit → M B) w0,
            http_error_msg r = Some e →
            bind (raise_for_status r) k w0 = (Raise (HTTPError e), w0)).
  { intros B r e k w0 He. unfold bind, raise_for_status. by rewrite He. }
  repeat split; intros r e Hreq He.
  - unfold wapor_python.access_token.
    erewrite bind_ok; [|by apply request_answered]. by apply Hraise.
  - unfold wapor_python.tif_url.
    erewrite bind_ok; [|by apply request_answered]. by apply Hraise.
  - unfold wapor_python.cubes.
    erewrite bind_ok; [|by apply request_answered]. by apply Hraise.
  - unfold wapor_python.rasters.
    erewrite bind_ok; [|by apply request_answered]. by apply Hraise.
Qed.

(** Storing under string keys. *)
Lemma dict_get_set_str c s v d :
  dict_get (JStr s) (dict_set (JStr c) v d)
  = if String.eqb c s then Some v else dict_get (JStr s) d.
Proof.
  induction d as [|[k old] d IH]; cbn.
  - by destruct (String.eqb c s).
  - destruct (py_key_eqb k (JStr c)) eqn:Hkc; cbn.
    + destruct k; try done. cbn in Hkc. apply String.eqb_eq in Hkc as ->.
      cbn. by destruct (String.eqb c s).
    + rewrite IH. destruct (py_key_eqb k (JStr s)) eqn:Hks; [|done].
      destruct (String.eqb c s) eqn:Hcs; [|done].
      apply String.eqb_eq in Hcs as ->. congruence.
Qed.

Lemma dict_set_new c v (d : dict) :
  Forall (λ kv, py_key_eqb (fst kv) (JStr c) = false) d →
  dict_set (JStr c) v d = d ++ [(JStr c, v)].
Proof.
  induction 1 as [|[k old] d Hk _ IH]; [done|]. cbn in *.
  by rewrite Hk, IH.
Qed.

Lemma dict_comp_strings key value items pairs acc :
  Forall2 (λ x cv, key x = inr (JStr (fst cv)) ∧ value x = inr (snd cv))
    items pairs →
  dict_comp key value items acc = inr (store_all pairs acc).
Proof.
  intros Hall. revert acc.
  induction Hall as [|x cv items pairs [Hk Hv] _ IH]; intros acc; [done|].
  cbn. rewrite Hk, Hv. cbn. apply IH.
Qed.

Lemma store_all_lookup s pairs :
  dict_get (JStr s) (store_all pairs []) = last_with s pairs.
Proof.
  unfold store_all.
  induction pairs as [|[c v] pairs IH] using rev_ind; [done|].
  rewrite foldl_app. cbn. rewrite dict_get_set_str, IH.
  clear IH. induction pairs as [|[c2 v2] pairs IH]; cbn.
  - by destruct (String.eqb c s).
  - rewrite <- IH. destruct (String.eqb c s); [done|].
    by destruct (last_with s pairs).
Qed.

Lemma store_all_distinct pairs :
  NoDup (fst <$> pairs) →
  store_all pairs [] = (λ cv, (JStr (fst cv), snd cv)) <$> pairs.
Proof.
  unfold store_all.
  induction pairs as [|[c v] pairs IH] using rev_ind; [done|].
  rewrite fmap_app. intros Hnd. apply NoDup_app in Hnd as (Hnd & Hfresh & _).
  rewrite foldl_app, fmap_app. cbn. rewrite IH by done.
  apply dict_set_new. apply Forall_fmap, Forall_forall.
  intros [c2 v2] Hin. cbn. apply String.eqb_neq. intros ->.
  apply (Hfresh c); [|by left]. apply list_elem_of_fmap. by exists (c, v2).
Qed.

Lemma status_checked {B} r (k : unit → M B) w :
  http_error_msg r = None → bind (raise_for_status r) k w = k tt w.
Proof. intros Hok. unfold bind, raise_for_status. by rewrite Hok. Qed.

(** X17: when the catalog is granted and every entry has a string [code] and
    a [caption], the dict the notebook builds maps each code to the caption
    of the last entry that carries it; when no code is repeated it is the
    list of (code, caption) in catalog order. *)
Theorem cubes_dict E w r items pairs :
  http E w GET wapor_python.cubes_request_url [] = Answer r →
  http_error_msg r = None →
  payload r "items" = Some (JArr items) →
  Forall2 (λ x cv, py_getitem x "code" = inr (JStr (fst cv))
                   ∧ py_getitem x "caption" = inr (snd cv)) items pairs →
  ∃ d,
    wapor_python.cubes E w
    = (Ok d,
       World (trace w ++ [EvRequest GET wapor_python.cubes_request_url []])
             (files w))
    ∧ (∀ s, dict_get (JStr s) d = last_with s pairs)
    ∧ (NoDup (fst <$> pairs) → d = (λ cv, (JStr (fst cv), snd cv)) <$> pairs).
Proof.
  intros Hreq Hok Hitems Hall. exists (store_all pairs []).
  split; [|split; [intros s; apply store_all_lookup | apply store_all_distinct]].
  unfold wapor_python.cubes.
  erewrite bind_ok; [|by apply request_answered].
  rewrite status_checked by done.
  rewrite (read_payload _ _ _ _ _ Hitems).
  erewrite bind_ok; [|reflexivity].
  by rewrite (dict_comp_strings _ _ _ pairs).
Qed.

Lemma cubes_dict_witness :
  ∃ d,
    wapor_python.cubes fao initial_world
    = (Ok d,
       World (trace initial_world
                ++ [EvRequest GET wapor_python.cubes_request_url []])
             (files initial_world))
    ∧ (∀ s, dict_get (JStr s) d
            = last_with s
                [("L1_AETI_A",
                  JStr "Actual EvapoTranspiration and Interception (Annual)");
                 ("L1_NPP_D", JStr "Net Primary Production (Dekadal)")])
    ∧ (NoDup (fst <$> [("L1_AETI_A",
                        JStr "Actual EvapoTranspiration and Interception (Annual)");
                       ("L1_NPP_D", JStr "Net Primary Production (Dekadal)")]) →
       d = (λ cv, (JStr (fst cv), snd cv))
             <$> [("L1_AETI_A",
                   JStr "Actual EvapoTranspiration and Interception (Annual)");
                  ("L1_NPP_D", JStr "Net Primary Production (Dekadal)")]).
Proof.
  apply (cubes_dict fao initial_world
           (Response 200 "OK" cubes_url
              (Some (JObj [("response", JObj [("items", catalog_items)])])))
           [JObj [("code", JStr "L1_AETI_A");
                  ("caption", JStr "Actual EvapoTranspiration and Interception (Annual)")];
            JObj [("code", JStr "L1_NPP_D");
                  ("caption", JStr "Net Primary Production (Dekadal)")]]).
  - reflexivity.
  - reflexivity.
  - reflexivity.
  - repeat constructor.
Defined.

Lemma dict_comp_stops key value pre pairs x k e post acc :
  Forall2 (λ y cv, key y = inr (JStr (fst cv)) ∧ value y = inr (snd cv))
    pre pairs →
  key x = inr k → value x = inl e →
  dict_comp key value (pre ++ x :: post) acc = inl e.
Proof.
  intros Hpre Hk Hv. revert acc.
  induction Hpre as [|y cv pre pairs [Hky Hvy] _ IH]; intros acc; cbn.
  - by rewrite Hk, Hv.
  - rewrite Hky, Hvy. cbn. apply IH.
Qed.

(** X18: the rasters cell needs [DEKAD.caption] on every entry: the first
    entry that has a [rasterId] but no such caption makes it raise, and no
    dict is shown, although the entries before it were complete. *)
Theorem rasters_needs_every_dekad E w r pre pairs x k e post :
  http E w GET wapor_python.rasterid_request_url [] = Answer r →
  http_error_msg r = None →
  payload r "items" = Some (JArr (pre ++ x :: post)) →
  Forall2 (λ y cv, py_getitem y "rasterId" = inr (JStr (fst cv))
                   ∧ wapor_python.dekad_caption y = inr (snd cv)) pre pairs →
  py_getitem x "rasterId" = inr k →
  wapor_python.dekad_caption x = inl e →
  wapor_python.rasters E w
  = (Raise e,
     World (trace w ++ [EvRequest GET wapor_python.rasterid_request_url []])
           (files w))
  ∧ (e = KeyError "DEKAD" ∨ e = KeyError "caption" ∨ e = TypeError).
Proof.
  intros Hreq Hok Hitems Hpre Hk He. split.
  - unfold wapor_python.rasters.
    erewrite bind_ok; [|by apply request_answered].
    rewrite status_checked by done.
    rewrite (read_payload _ _ _ _ _ Hitems).
    erewrite bind_ok; [|reflexivity].
    by rewrite (dict_comp_stops _ _ _ pairs x k e).
  - unfold wapor_python.dekad_caption in He.
    destruct (py_getitem x "DEKAD") as [e'|dekad] eqn:Hd.
    + injection He as <-. apply py_getitem_error in Hd as [->| ->]; eauto.
    + apply py_getitem_error in He as [->| ->]; eauto.
Qed.

Lemma rasters_needs_every_dekad_witness :
  wapor_python.rasters fao_dekad initial_world
  = (Raise (KeyError "DEKAD"),
     World (trace initial_world
              ++ [EvRequest GET wapor_python.rasterid_request_url []])
           (files initial_world))
  ∧ (KeyError "DEKAD" = KeyError "DEKAD" ∨ KeyError "DEKAD" = KeyError "caption"
     ∨ KeyError "DEKAD" = TypeError).
Proof.
  apply (rasters_needs_every_dekad fao_dekad initial_world
           (Response 200 "OK" wapor_python.rasterid_request_url
              (Some (JObj [("response",
                 JObj [("items",
                        JArr [raster_item "L1_NPP_D_0901";
                              JObj [("rasterId", JStr "L1_NPP_D_0902")]])])])))
           [raster_item "L1_NPP_D_0901"] [("L1_NPP_D_0901", JStr "n/a")]
           (JObj [("rasterId", JStr "L1_NPP_D_0902")]) (JStr "L1_NPP_D_0902")
           (KeyError "DEKAD") []).
  - reflexivity.
  - reflexivity.
  - reflexivity.
  - repeat constructor.
  - reflexivity.
  - reflexivity.
Defined.
